(** * GRACC APEL report: a shallow embedding of [apel_report.py]

    The script walks a nested OpenSearch aggregation, resolves one
    normalization factor per leaf bucket, merges the leaves that share a
    [RecordKey] and prints one or two APEL blocks per merged record.

    Conventions of the embedding.
    - A Python [int] is a [Z] (unbounded, as in Python).
    - A Python [float] is the rational number it denotes, a [Qc]; float
      arithmetic is the exact arithmetic of [Qc] (rounding, infinities and
      NaN are outside the model).  [int(x)] on a float truncates toward 0.
    - A [dict] is a [gmap]; module-level globals that are assigned while the
      program runs ([resource_group_map], the output streams) live in an
      explicit [state] threaded by a small state-and-exception monad.
    - Values that come from outside the script (the Topology reply, the
      [normal_hepspec] side file, the OpenSearch aggregation, the clock,
      [sys.argv]) are arguments. *)

From Stdlib Require Import QArith Qcanon ZArith Lia Lqa Permutation DecimalString.
From stdpp Require Import gmap strings list fin_maps numbers sorting.

Local Open Scope Z_scope.

(** ** Python numbers *)

Module Py.

(** [min(a, b)] and [max(a, b)] keep the first argument unless the second
    is strictly smaller (resp. larger). *)
Definition min_int (a b : Z) : Z := if b <? a then b else a.
Definition max_int (a b : Z) : Z := if a <? b then b else a.
Definition min_float (a b : Qc) : Qc := if decide (b < a)%Qc then b else a.

(** [float(n)] for an [int] n, also the implicit conversion in [n * x]. *)
Definition float (n : Z) : Qc := Qc_of_Z n.

(** [int(x)] for a float x: truncation toward zero. *)
Definition int (x : Qc) : Z := Z.quot (Qnum (this x)) (Zpos (Qden (this x))).

(** [sum(xs)] and [len(xs)]. *)
Definition sum (xs : list Qc) : Qc := foldl Qcplus (Q2Qc 0) xs.
Definition len {A} (xs : list A) : Z := Z.of_nat (length xs).

(** [statistics.mean] on a non-empty list (it raises on an empty one, and
    is only called on non-empty lists). *)
Definition mean (xs : list Qc) : Qc := (sum xs / float (len xs))%Qc.

(** [math.fabs]. *)
Definition fabs (x : Qc) : Qc := if decide (x < 0)%Qc then (- x)%Qc else x.

(** [math.isclose(a, b, rel_tol, abs_tol)], on finite arguments. *)
Definition isclose_tol (a b rel_tol abs_tol : Qc) : bool :=
  if decide (a = b) then true
  else
    let diff := fabs (b - a)%Qc in
    bool_decide (diff <= fabs (rel_tol * b))%Qc
    || bool_decide (diff <= fabs (rel_tol * a))%Qc
    || bool_decide (diff <= abs_tol)%Qc.

(** The defaults of [math.isclose]: [rel_tol=1e-09], [abs_tol=0.0]. *)
Definition rel_tol_default : Qc := Q2Qc (1 # 1000000000).
Definition abs_tol_default : Qc := Q2Qc 0.
Definition isclose (a b : Qc) : bool :=
  isclose_tol a b rel_tol_default abs_tol_default.

(** [str(n)] for an [int] n, and the format [%02d]. *)
Definition str (n : Z) : string := NilZero.string_of_int (Z.to_int n).
Definition fmt_02d (n : Z) : string :=
  let s := str n in
  if (String.length s <? 2)%nat then String.append "0" s else s.

End Py.

(** ** Exceptions, program state, and the monad that threads them *)

Inductive exn : Type :=
  | Exception (msg : string)
  | ValueError (msg : string)
  | IndexError (msg : string)
  | AttributeError (msg : string)
  | SystemExit (code : Z).

(** What the script mutates: the global [resource_group_map] ([None] until
    the first call of [get_hs23_portion]), the files it opened, and the two
    standard streams.  Text is kept as the list of printed lines. *)
Record state : Type := mkState {
  resource_group_map : option (gmap string Qc);
  files : gmap string (list string);
  stdout : list string;
  stderr : list string
}.

Definition initial_state : state := mkState None ∅ [] [].

Inductive result (A : Type) : Type :=
  | Ok (a : A) (s : state)
  | Raise (e : exn) (s : state).
Arguments Ok {A} a s.
Arguments Raise {A} e s.

Definition M (A : Type) : Type := state -> result A.

#[global] Instance M_ret : MRet M := fun A a s => Ok a s.
#[global] Instance M_bind : MBind M := fun A B f m s =>
  match m s with
  | Ok a s' => f a s'
  | Raise e s' => Raise e s'
  end.

Definition raise {A} (e : exn) : M A := fun s => Raise e s.
Definition get_state : M state := fun s => Ok s s.
Definition put_state (s' : state) : M unit := fun _ => Ok tt s'.

(** [try: body except: handler] with a bare [except]. *)
Definition try_except {A} (body : M A) (handler : M A) : M A := fun s =>
  match body s with
  | Ok a s' => Ok a s'
  | Raise _ s' => handler s'
  end.

(** [for x in xs: body]. *)
Fixpoint for_each {A} (xs : list A) (body : A -> M unit) : M unit :=
  match xs with
  | [] => mret tt
  | x :: xs' => _ ← body x; for_each xs' body
  end.

(** The process exit status of a finished run. *)
Definition exit_status {A} (r : result A) : Z :=
  match r with
  | Ok _ _ => 0
  | Raise (SystemExit code) _ => code
  | Raise _ _ => 1
  end.

Definition final_state {A} (r : result A) : state :=
  match r with Ok _ s => s | Raise _ s => s end.

(** *** Streams *)

Inductive stream : Type := Stdout | Stderr | File (name : string).

(** The lines a stream holds. *)
Definition written (s : state) (f : stream) : list string :=
  match f with
  | Stdout => stdout s
  | Stderr => stderr s
  | File name => default [] (files s !! name)
  end.

Definition append_line (f : stream) (line : string) (s : state) : state :=
  match f with
  | Stdout => mkState (resource_group_map s) (files s) (stdout s ++ [line]) (stderr s)
  | Stderr => mkState (resource_group_map s) (files s) (stdout s) (stderr s ++ [line])
  | File name =>
      mkState (resource_group_map s)
              (<[name := written s f ++ [line]]> (files s)) (stdout s) (stderr s)
  end.

(** [print(a1, ..., an, file=f)]: the arguments, already converted by [str],
    separated by one space. *)
Definition print (args : list string) (f : stream) : M unit := fun s =>
  Ok tt (append_line f (String.concat " " args) s).

(** [open(name, "w")] creates or truncates the file. *)
Definition open_w (name : string) : M stream := fun s =>
  Ok (File name)
     (mkState (resource_group_map s) (<[name := []]> (files s)) (stdout s) (stderr s)).

(** ** Records and their merge *)

(** [RecordKey = namedtuple('RecordKey', ['vo', 'site', 'cores', 'dn'])];
    a named tuple is a tuple, so the key is the product itself. *)
Definition RecordKey : Type := string * string * Z * string.
Definition rk_vo (rk : RecordKey) : string := rk.1.1.1.
Definition rk_site (rk : RecordKey) : string := rk.1.1.2.
Definition rk_cores (rk : RecordKey) : Z := rk.1.2.
Definition rk_dn (rk : RecordKey) : string := rk.2.
Definition mkRecordKey (vo site : string) (cores : Z) (dn : string) : RecordKey :=
  (vo, site, cores, dn).

(** [Record = namedtuple('Record', ["mintime", "maxtime", "walldur",
    "cpudur", "nf", "njobs"])]. *)
Record Record_ : Type := mkRecord {
  mintime : Z;
  maxtime : Z;
  walldur : Z;
  cpudur : Z;
  nf : Qc;
  njobs : Z
}.

Definition record_adder (a b : Record_) : Record_ :=
  let mintime' := Py.min_int (mintime a) (mintime b) in
  let maxtime' := Py.max_int (maxtime a) (maxtime b) in
  let walldur' := walldur a + walldur b in
  let cpudur' := cpudur a + cpudur b in
  let nf' := Py.min_float (nf a) (nf b) in
  let njobs' := njobs a + njobs b in
  mkRecord mintime' maxtime' walldur' cpudur' nf' njobs'.

(** ** The HEPScore23 portion of a resource group *)

(** One entry of [raw_json[name]["Resources"]["Resource"]]: of its
    [WLCGInformation] dictionary the script reads one key only, present or
    not; the field holds [float(...)] of its value. *)
Record resource : Type := mkResource {
  HEPScore23Percentage : option Qc
}.

(** The reply of [requests.get] on the Topology endpoint. *)
Record response : Type := mkResponse {
  status_code : Z;
  json : gmap string (list resource)
}.

(** The body of the loop over [raw_json]: the value stored for one
    resource group. *)
Definition group_portion (resources : list resource) : Qc :=
  let hep_spec_percentages := omap HEPScore23Percentage resources in
  if (0 <? Py.len hep_spec_percentages) then Py.mean hep_spec_percentages
  else Q2Qc 0.

(** The loop [for resource_group_name in raw_json], started from [{}]. *)
Definition parse_resource_groups (raw_json : gmap string (list resource))
  : gmap string Qc :=
  map_fold (fun resource_group_name resources acc =>
              <[resource_group_name := group_portion resources]> acc)
           ∅ raw_json.

Definition get_hs23_portion (topology : response) (resource_group : string)
  : M Qc :=
  s ← get_state;
  m ← match resource_group_map s with
      | None =>
          let resp := topology in
          if decide (status_code resp ≠ 200) then
            raise (Exception
              (String.append
                 "Error downloading resource group summary from Topology: "
                 (Py.str (status_code resp))))
          else
            let m := parse_resource_groups (json resp) in
            _ ← put_state (mkState (Some m) (files s) (stdout s) (stderr s));
            mret m
      | Some m => mret m
      end;
  mret (default (Q2Qc 0) (m !! resource_group)).

(** ** Leaf buckets and the normalization factor *)

(** The metrics [add_bkt_metrics] attaches to a bucket: the keys of the
    [NormalFactor] terms sub-aggregation and the [value] of each sum, min
    and max. *)
Record bucket : Type := mkBucket {
  NormalFactor : list Qc;
  CpuDuration_system : Qc;
  CpuDuration_user : Qc;
  CpuDuration : Qc;
  WallDuration : Qc;
  NumberOfJobs : Qc;
  EarliestEndTime : Qc;
  LatestEndTime : Qc
}.

Definition fixed_header : string := "APEL-normalised-summary-message: v0.4".
Definition fixed_separator : string := "%%".
Definition fixed_infrastructure : string := "grid".
Definition fixed_nodecount : Z := 1.
Definition fixed_normalizationfactor : Z := 12.

(** [nf_table] is the dictionary [normal_hepspec_table()] built from the
    side file when the module was loaded. *)
Definition norm_factor (nf_table : gmap string Qc) (bkt : bucket) (site : string)
  : Qc :=
  let nf_max := Py.float 200 in
  let nf_default := Py.float 12 in
  let nf_values := filter (fun key => (0 < key)%Qc) (NormalFactor bkt) in
  let nf :=
    if decide (Py.len nf_values = 0) then nf_default
    else if decide (Py.len nf_values = 1) then
      (* nf_values[0]; the index is in range on this branch *)
      default nf_default (nf_values !! 0%nat)
    else (1 * Py.sum nf_values / Py.float (Py.len nf_values))%Qc in
  if decide (nf_max <= nf)%Qc then
    match nf_table !! site with
    | Some table_nf => table_nf
    | None => nf_default
    end
  else nf.

Definition bkt_record (nf_table : gmap string Qc) (bkt : bucket) (site : string)
  : Record_ :=
  let mintime := Py.int (EarliestEndTime bkt / Py.float 1000)%Qc in
  let maxtime := Py.int (LatestEndTime bkt / Py.float 1000)%Qc in
  let walldur := Py.int (WallDuration bkt) in
  let cpudur :=
    if decide (CpuDuration_user bkt = Q2Qc 0 /\ CpuDuration_system bkt = Q2Qc 0)
    then Py.int (CpuDuration bkt)
    else Py.int (CpuDuration_user bkt + CpuDuration_system bkt)%Qc in
  let nf := norm_factor nf_table bkt site in
  let njobs := Py.int (NumberOfJobs bkt) in
  mkRecord mintime maxtime walldur cpudur nf njobs.

(** ** The accumulator: [autodict] *)

(** A value of the accumulator is either the empty [autodict] that
    [defaultdict.__missing__] has just created, or a [Record]. *)
Inductive cell : Type :=
  | Autodict
  | Rec (r : Record_).

(** [recs[rk]]: [defaultdict.__getitem__] stores and returns
    [default_factory()], an empty [autodict], for a missing key. *)
Definition getitem (recs : gmap RecordKey cell) (rk : RecordKey)
  : cell * gmap RecordKey cell :=
  match recs !! rk with
  | Some c => (c, recs)
  | None => (Autodict, <[rk := Autodict]> recs)
  end.

(** [c + other]: [autodict.__add__] returns the other operand;
    [Record.__add__] is [record_adder]. *)
Definition add (c : cell) (other : Record_) : cell :=
  match c with
  | Autodict => Rec other
  | Rec a => Rec (record_adder a other)
  end.

(** [recs[rk] += rec]. *)
Definition iadd_item (recs : gmap RecordKey cell) (rk : RecordKey) (rec : Record_)
  : gmap RecordKey cell :=
  let '(c, recs') := getitem recs rk in
  <[rk := add c rec]> recs'.

Definition site_map : gmap string string :=
  list_to_map [("Crane", "Nebraska"); ("Sandhills", "Nebraska");
               ("Tusker", "Nebraska")].

Definition site_vo_map : gmap (string * string) string :=
  list_to_map [(("MIT_CMS", "lhcb"), "MIT_LHCb")].

Definition add_record (nf_table : gmap string Qc) (recs : gmap RecordKey cell)
    (vo site : string) (cores : Z) (dn : string) (bkt : bucket)
  : gmap RecordKey cell :=
  let site := match site_map !! site with Some s => s | None => site end in
  let site := match site_vo_map !! (site, vo) with Some s => s | None => site end in
  let rk := mkRecordKey vo site cores dn in
  let rec := bkt_record nf_table bkt site in
  iadd_item recs rk rec.

(** ** The report emitter *)

Definition print_header (output_file : stream) : M unit :=
  print [fixed_header] output_file.

(** [xs[i]] on a list. *)
Definition list_getitem (xs : list string) (i : nat) : M string :=
  match xs !! i with
  | Some x => mret x
  | None => raise (IndexError "list index out of range")
  end.

Definition print_rk_recr (topology : response) (year month : Z)
    (rk : RecordKey) (rec : Record_) (output_file : stream) : M unit :=
  let dn :=
    if decide (rk_dn rk = "N/A") then "generic " +:+ rk_vo rk +:+ " user"
    else rk_dn rk in
  let submit_hosts := ["hepspec-hosts"] in
  hs23_portion ← get_hs23_portion topology (rk_site rk);
  let submit_hosts :=
    if negb (Py.isclose hs23_portion (Q2Qc 0))
    then submit_hosts ++ ["hepscore-hosts"] else submit_hosts in
  let write := fun line => print line output_file in
  for_each (seq 0 (length submit_hosts)) (fun submit_host =>
    pm ← (if decide (submit_host = 0%nat) then
            mret ((1 - hs23_portion)%Qc, "hepspec")
          else if decide (submit_host = 1%nat) then
            mret (hs23_portion, "HEPscore23")
          else
            raise (ValueError ("Invalid submit_host: "
                               +:+ Py.str (Z.of_nat submit_host))));
    let portion : Qc := pm.1 in
    let metric_name : string := pm.2 in
    _ ← write ["Site:"; rk_site rk];
    host ← list_getitem submit_hosts submit_host;
    _ ← write ["SubmitHost:"; host];
    _ ← write ["VO:"; rk_vo rk];
    _ ← write ["EarliestEndTime:"; Py.str (mintime rec)];
    _ ← write ["LatestEndTime:"; Py.str (maxtime rec + 60 * 60 * 24 - 1)];
    _ ← write ["Month:"; Py.fmt_02d month];
    _ ← write ["Year:"; Py.str year];
    _ ← write ["Infrastructure:"; fixed_infrastructure];
    _ ← write ["GlobalUserName:"; dn];
    _ ← write ["Processors:"; Py.str (rk_cores rk)];
    _ ← write ["NodeCount:"; Py.str fixed_nodecount];
    _ ← write ["WallDuration:";
               Py.str (Py.int (Py.float (walldur rec) * portion)%Qc)];
    _ ← write ["CpuDuration:";
               Py.str (Py.int (Py.float (cpudur rec) * portion)%Qc)];
    _ ← write ["NormalisedWallDuration:";
               "{" +:+ metric_name +:+ ": "
               +:+ Py.str (Py.int (Py.float (walldur rec) * nf rec * portion)%Qc)
               +:+ "}"];
    _ ← write ["NormalisedCpuDuration:";
               "{" +:+ metric_name +:+ ": "
               +:+ Py.str (Py.int (Py.float (cpudur rec) * nf rec * portion)%Qc)
               +:+ "}"];
    _ ← write ["NumberOfJobs:";
               Py.str (Py.int (Py.float (njobs rec) * portion)%Qc)];
    write [fixed_separator]).

(** ** The aggregation and [main] *)

(** The nested terms aggregation [Cores > VO > DN > Site (> SiteName)]:
    a bucket is its [key] with what hangs below it. *)
Record site_bucket : Type := mkSiteBucket {
  site_key : string;
  site_metrics : bucket;
  SiteName : list (string * bucket)
}.
Definition dn_bucket : Type := string * list site_bucket.
Definition vo_bucket : Type := string * list dn_bucket.
Definition cores_bucket : Type := Z * list vo_bucket.

Definition MISSING : string := "__MISSING__".

(** [sorted(agg.buckets, key=operator.attrgetter('key'))]. *)
Definition sorted_buckets {B K : Type} (leb : K -> K -> bool) (key : B -> K)
    (buckets : list B) : list B :=
  merge_sort (fun a b => leb (key a) (key b)) buckets.

(** Tuple comparison on [RecordKey]. *)
Definition rk_compare (a b : RecordKey) : comparison :=
  match String.compare (rk_vo a) (rk_vo b) with
  | Eq =>
      match String.compare (rk_site a) (rk_site b) with
      | Eq =>
          match Z.compare (rk_cores a) (rk_cores b) with
          | Eq => String.compare (rk_dn a) (rk_dn b)
          | c => c
          end
      | c => c
      end
  | c => c
  end.

(** [sorted(recs.items())]: the keys of a dictionary are distinct, so the
    comparison of two items is decided by their keys. *)
Definition sorted_items (recs : gmap RecordKey cell) : list (RecordKey * cell) :=
  merge_sort (fun a b => bool_decide (rk_compare a.1 b.1 ≠ Gt)) (map_to_list recs).

(** [auto_year_month()], from [today] as (year, month, day). *)
Definition auto_year_month (today : Z * Z * Z) : Z * Z :=
  let '(year, month, day) := today in
  if day <=? 3 then
    if month =? 1 then (year - 1, 12) else (year, month - 1)
  else (year, month).

(** The five nested loops of [main] over the aggregation. *)
Definition walk (nf_table : gmap string Qc) (aggs : list cores_bucket)
  : gmap RecordKey cell :=
  foldl (fun recs (cores_bkt : cores_bucket) =>
    let cores := cores_bkt.1 in
    foldl (fun recs (vo_bkt : vo_bucket) =>
      let vo := vo_bkt.1 in
      foldl (fun recs (dn_bkt : dn_bucket) =>
        let dn := dn_bkt.1 in
        foldl (fun recs (site_bkt : site_bucket) =>
          let site := site_key site_bkt in
          if decide (site = MISSING) then
            foldl (fun recs (sitename_bkt : string * bucket) =>
                     let sitename := sitename_bkt.1 in
                     add_record nf_table recs vo sitename cores dn sitename_bkt.2)
                  recs (sorted_buckets String.leb fst (SiteName site_bkt))
          else add_record nf_table recs vo site cores dn (site_metrics site_bkt))
          recs (sorted_buckets String.leb site_key dn_bkt.2))
        recs (sorted_buckets String.leb fst vo_bkt.2))
      recs (sorted_buckets String.leb fst cores_bkt.2))
    ∅ (sorted_buckets Z.leb fst aggs).

Section Main.

(** What [main] takes from outside the script: [int] on a string ([None]
    when it raises [ValueError]), [os.path.basename(__file__)], the date
    of [datetime.datetime.today()], the reply of [gracc_query_apel] (or
    the exception it raised), the Topology reply and the side table. *)
Context (int_of_str : string -> option Z)
        (file_basename : string)
        (today : Z * Z * Z)
        (gracc_query_apel : Z -> Z -> exn + list cores_bucket)
        (topology : response)
        (nf_table : gmap string Qc).

(** [next] on the iterator [map(int, args)]: [None] is [StopIteration]. *)
Definition next_int (it : list string) : M (option (Z * list string)) :=
  match it with
  | [] => mret None
  | a :: rest =>
      match int_of_str a with
      | Some n => mret (Some (n, rest))
      | None => raise (ValueError ("invalid literal for int() with base 10: " +:+ a))
      end
  end.

(** [year,month = map(int, args)]: two items are taken, then a third is
    asked for to check that the iterator is exhausted. *)
Definition unpack_year_month (args : list string) : M (Z * Z) :=
  x ← next_int args;
  match x with
  | None => raise (ValueError "not enough values to unpack (expected 2, got 0)")
  | Some (year, it) =>
      y ← next_int it;
      match y with
      | None => raise (ValueError "not enough values to unpack (expected 2, got 1)")
      | Some (month, it) =>
          z ← next_int it;
          match z with
          | None => mret (year, month)
          | Some _ => raise (ValueError "too many values to unpack (expected 2)")
          end
      end
  end.

Definition usage : string := "usage: " +:+ file_basename +:+ " [YEAR MONTH]".

Definition main (argv : list string) : M unit :=
  ym ← (if decide (Py.len (tail argv) = 0) then mret (auto_year_month today)
        else
          try_except (unpack_year_month (tail argv))
                     (_ ← print [usage] Stderr; raise (SystemExit 0)));
  let year : Z := ym.1 in
  let month : Z := ym.2 in
  let outfile_name := Py.fmt_02d month +:+ "_" +:+ Py.str year +:+ ".apel" in
  outfile ← open_w outfile_name;
  aggs ← match gracc_query_apel year month with
         | inl e => raise e
         | inr aggs => mret aggs
         end;
  _ ← print_header outfile;
  let recs := walk nf_table aggs in
  _ ← for_each (sorted_items recs) (fun item =>
        match item.2 with
        | Rec rec => print_rk_recr topology year month item.1 rec outfile
        | Autodict =>
            (* not reached: [add_record] leaves a Record under every key *)
            raise (AttributeError "'autodict' object has no attribute 'mintime'")
        end);
  print ["wrote: " +:+ outfile_name] Stdout.

End Main.

(** ** Vocabulary of the specification *)

(** One block of the report: the seventeen lines printed for one submit
    host, given the portion and the metric name it is computed with. *)
Definition apel_block (year month : Z) (rk : RecordKey) (rec : Record_)
    (submit_host : string) (portion : Qc) (metric_name : string) : list string :=
  [ "Site: " +:+ rk_site rk;
    "SubmitHost: " +:+ submit_host;
    "VO: " +:+ rk_vo rk;
    "EarliestEndTime: " +:+ Py.str (mintime rec);
    "LatestEndTime: " +:+ Py.str (maxtime rec + 86399);
    "Month: " +:+ Py.fmt_02d month;
    "Year: " +:+ Py.str year;
    "Infrastructure: grid";
    "GlobalUserName: " +:+
      (if String.eqb (rk_dn rk) "N/A" then "generic " +:+ rk_vo rk +:+ " user"
       else rk_dn rk);
    "Processors: " +:+ Py.str (rk_cores rk);
    "NodeCount: 1";
    "WallDuration: " +:+ Py.str (Py.int (Py.float (walldur rec) * portion)%Qc);
    "CpuDuration: " +:+ Py.str (Py.int (Py.float (cpudur rec) * portion)%Qc);
    "NormalisedWallDuration: {" +:+ metric_name +:+ ": " +:+
      Py.str (Py.int (Py.float (walldur rec) * nf rec * portion)%Qc) +:+ "}";
    "NormalisedCpuDuration: {" +:+ metric_name +:+ ": " +:+
      Py.str (Py.int (Py.float (cpudur rec) * nf rec * portion)%Qc) +:+ "}";
    "NumberOfJobs: " +:+ Py.str (Py.int (Py.float (njobs rec) * portion)%Qc);
    "%%" ].

(** What follows [label] in [line], when [line] starts with it. *)
Fixpoint strip_prefix (label line : string) : option string :=
  match label with
  | EmptyString => Some line
  | String a label' =>
      match line with
      | EmptyString => None
      | String b line' =>
          if Ascii.eqb a b then strip_prefix label' line' else None
      end
  end.

(** The values printed under a label, in the order of the text. *)
Definition field_values (label : string) (lines : list string) : list string :=
  omap (strip_prefix label) lines.

(** The arithmetic mean of a list of numbers. *)
Definition arith_mean (xs : list Qc) : Qc :=
  (foldr Qcplus (Q2Qc 0) xs / Qc_of_Z (Z.of_nat (length xs)))%Qc.

(** The factor the observed values resolve to, before the check against
    the upper bound. *)
Definition first_stage (positives : list Qc) : Qc :=
  match positives with
  | [] => Py.float 12
  | [v] => v
  | _ => arith_mean positives
  end.

(** The key under which [add_record] files a leaf. *)
Definition leaf_key (vo site : string) (cores : Z) (dn : string) : RecordKey :=
  let site1 := default site (site_map !! site) in
  mkRecordKey vo (default site1 (site_vo_map !! (site1, vo))) cores dn.

(** The accumulator after a sequence of leaves, each given as
    (vo, site, cores, dn, bucket). *)
Definition Leaf : Type := string * string * Z * string * bucket.
Definition add_leaves (nf_table : gmap string Qc) (recs : gmap RecordKey cell)
    (leaves : list Leaf) : gmap RecordKey cell :=
  foldl (fun recs (l : Leaf) =>
           add_record nf_table recs l.1.1.1.1 l.1.1.1.2 l.1.1.2 l.1.2 l.2)
        recs leaves.

Definition key_of (l : Leaf) : RecordKey :=
  leaf_key l.1.1.1.1 l.1.1.1.2 l.1.1.2 l.1.2.

(** Folding the records of the leaves that share one key, starting from the
    fresh accumulator. *)
Definition merge_leaves (leaves : list Record_) : cell :=
  foldl add Autodict leaves.

(** The invariant the data model states for a record. *)
Definition Record_inv (r : Record_) : Prop :=
  mintime r <= maxtime r /\ 0 <= walldur r /\ 0 <= cpudur r /\ 0 <= njobs r.


(** The state once [get_hs23_portion] has downloaded and cached the reply. *)
Definition fetched (topology : response) (s : state) : state :=
  mkState (Some (parse_resource_groups (json topology)))
          (files s) (stdout s) (stderr s).

(** An argument list made of two tokens that [int] accepts. *)
Definition year_month_args (int_of_str : string -> option Z)
    (args : list string) : Prop :=
  exists a b y m,
    args = [a; b] /\ int_of_str a = Some y /\ int_of_str b = Some m.

(** ** Sample inputs *)

(** A Topology reply: a group at portion 0.4 (one of its two resources
    carries no percentage), a group without any percentage, a group whose
    percentage is written on the 0-100 scale, and a group whose portion is
    far below the relative tolerance of [math.isclose]. *)
Definition sample_topology : response :=
  mkResponse 200
    (list_to_map
       [("Nebraska", [mkResource (Some (Q2Qc (2 # 5))); mkResource None]);
        ("UChicago", [mkResource None]);
        ("Purdue", [mkResource (Some (Py.float 40))]);
        ("Caltech", [mkResource (Some (Q2Qc (1 # 1000000000000000000000000)))])]).

Definition sample_record : Record_ :=
  mkRecord 1700000000 1700003600 3600 3600 (Py.float 10) 1.

(** Two leaves that share a key: factors 8.0 and 16.0, durations
    (100, 200, 1) and (50, 100, 1). *)
Definition sample_leaf_a : Record_ :=
  mkRecord 1700000000 1700003600 100 200 (Py.float 8) 1.
Definition sample_leaf_b : Record_ :=
  mkRecord 1699990000 1700001000 50 100 (Py.float 16) 1.

Definition sample_key (site : string) : RecordKey :=
  mkRecordKey "cms" site 8 "N/A".

(** The portion the sample reply gives a site. *)
Definition sample_portion (site : string) : Qc :=
  default (Q2Qc 0) (parse_resource_groups (json sample_topology) !! site).

(** A leaf bucket: one observed factor 10.0, one hour of wall and CPU time,
    one job, both end times at the same instant. *)
Definition sample_bucket : bucket :=
  mkBucket [Py.float 10] (Q2Qc 0) (Q2Qc 0) (Py.float 3600) (Py.float 3600)
           (Py.float 1) (Py.float 1700000000000) (Py.float 1700000000000).

(** An aggregation with two leaves under one key once the sites are
    renamed (Crane and Tusker both become Nebraska; Tusker is reached
    through the missing-site branch), and a Topology reply without any
    resource group. *)
Definition sample_aggregation : list cores_bucket :=
  [(8, [("cms", [("N/A",
      [mkSiteBucket "Crane" sample_bucket [];
       mkSiteBucket MISSING sample_bucket [("Tusker", sample_bucket)]])])])].

Definition empty_topology : response := mkResponse 200 ∅.

(** A reading of decimal numerals, to stand for [int] on a string. *)
Definition sample_int_of_str (a : string) : option Z :=
  Z.of_int <$> NilZero.int_of_string a.

(** ** The side table [normal_hepspec] *)

Section Table.

(** [str.split()] and [float] on a string ([None] when it raises
    [ValueError]) are taken from outside. *)
Context (split : string -> list string)
        (float_of_str : string -> option Qc).

(** The loop of [normal_hepspec_table] over the lines of the file. *)
Fixpoint normal_hepspec_loop (lines : list string) (table : gmap string Qc)
  : exn + gmap string Qc :=
  match lines with
  | [] => inr table
  | line :: lines' =>
      if String.prefix "#" line then normal_hepspec_loop lines' table
      else
        let tokens := split line in
        if decide (Py.len tokens <> 2) then normal_hepspec_loop lines' table
        else
          match tokens with
          | [site; nf] =>
              match float_of_str nf with
              | Some nf => normal_hepspec_loop lines' (<[site := nf]> table)
              | None =>
                  inl (ValueError ("could not convert string to float: " +:+ nf))
              end
          | _ => normal_hepspec_loop lines' table
          end
  end.

(** [normal_hepspec_table()], given the lines of the side file. *)
Definition normal_hepspec_table (lines : list string) : exn + gmap string Qc :=
  normal_hepspec_loop lines ∅.

(** What a line contributes: nothing for a comment or a line that does not
    split in two, else the site and the text of its factor. *)
Definition table_entry (line : string) : option (string * string) :=
  if String.prefix "#" line then None
  else match split line with
       | [site; nf] => Some (site, nf)
       | _ => None
       end.

(** The factors the lines give a site, in the order of the file. *)
Definition factors_of (site : string) (lines : list string) : list Qc :=
  omap (fun line =>
          e ← table_entry line;
          if decide (e.1 = site) then float_of_str e.2 else None) lines.

End Table.

(** ** More vocabulary *)

(** The leaves of an aggregation, each level taken in the order [order]
    gives its buckets. *)
Definition leaves_by
    (order : forall B K : Type, (K -> K -> bool) -> (B -> K) -> list B -> list B)
    (aggs : list cores_bucket) : list Leaf :=
  cores_bkt ← order _ _ Z.leb fst aggs;
  vo_bkt ← order _ _ String.leb fst cores_bkt.2;
  dn_bkt ← order _ _ String.leb fst vo_bkt.2;
  site_bkt ← order _ _ String.leb site_key dn_bkt.2;
  if decide (site_key site_bkt = MISSING) then
    sitename_bkt ← order _ _ String.leb fst (SiteName site_bkt);
    [(vo_bkt.1, sitename_bkt.1, cores_bkt.1, dn_bkt.1, sitename_bkt.2)]
  else
    [(vo_bkt.1, site_key site_bkt, cores_bkt.1, dn_bkt.1, site_metrics site_bkt)].

(** The leaves in the order of the reply, without any sorting. *)
Definition leaves_of (aggs : list cores_bucket) : list Leaf :=
  leaves_by (fun _ _ _ _ buckets => buckets) aggs.

(** The record [add_record] builds for a leaf. *)
Definition leaf_record (nf_table : gmap string Qc) (l : Leaf) : Record_ :=
  bkt_record nf_table l.2 (rk_site (key_of l)).

(** The records of the leaves filed under [k], in the order of the leaves. *)
Definition records_at (nf_table : gmap string Qc) (k : RecordKey)
    (leaves : list Leaf) : list Record_ :=
  leaf_record nf_table <$> filter (fun l => key_of l = k) leaves.

(** The sum of one field over the accumulator, and over a list. *)
Definition cell_field (field : Record_ -> Z) (c : cell) : Z :=
  match c with
  | Autodict => 0
  | Rec r => field r
  end.
Definition total (field : Record_ -> Z) (recs : gmap RecordKey cell) : Z :=
  map_fold (fun _ c acc => cell_field field c + acc) 0 recs.
Definition sum_list (xs : list Z) : Z := foldr Z.add 0 xs.

(** A leaf bucket with sensible metrics: end times in order and not before
    the epoch, no negative duration or count. *)
Definition bucket_wf (bkt : bucket) : Prop :=
  (0 <= EarliestEndTime bkt)%Qc /\ (EarliestEndTime bkt <= LatestEndTime bkt)%Qc /\
  (0 <= WallDuration bkt)%Qc /\ (0 <= CpuDuration bkt)%Qc /\
  (0 <= CpuDuration_user bkt)%Qc /\ (0 <= CpuDuration_system bkt)%Qc /\
  (0 <= NumberOfJobs bkt)%Qc.



(** The body of the last loop of [main]. *)
Definition emit_item (topology : response) (year month : Z) (outfile : stream)
    (item : RecordKey * cell) : M unit :=
  match item.2 with
  | Rec rec => print_rk_recr topology year month item.1 rec outfile
  | Autodict =>
      raise (AttributeError "'autodict' object has no attribute 'mintime'")
  end.

(** The year and month [main] works on: from the clock without arguments,
    from two tokens that [int] accepts otherwise. *)
Definition chosen_year_month (int_of_str : string -> option Z)
    (today : Z * Z * Z) (argv : list string) (ym : Z * Z) : Prop :=
  (tail argv = [] /\ ym = auto_year_month today) \/
  (exists a b, tail argv = [a; b] /\
               int_of_str a = Some ym.1 /\ int_of_str b = Some ym.2).

Definition outfile_name (year month : Z) : string :=
  Py.fmt_02d month +:+ "_" +:+ Py.str year +:+ ".apel".


(** Splitting at blanks, to stand for [str.split], and a reading of
    decimal integers, to stand for [float] on a string. *)
Fixpoint sample_split_from (current : string) (line : string) : list string :=
  match line with
  | EmptyString => if String.eqb current "" then [] else [current]
  | String c rest =>
      if Ascii.eqb c (Ascii.ascii_of_nat 32) then
        (if String.eqb current "" then [] else [current])
        ++ sample_split_from "" rest
      else sample_split_from (current +:+ String c "") rest
  end.
Definition sample_split (line : string) : list string :=
  sample_split_from "" line.
Definition sample_float_of_str (a : string) : option Qc :=
  Py.float <$> sample_int_of_str a.

(** The sample aggregation with its two site buckets in the other order,
    a reply of Topology that is an error, and the lines of a side file. *)
Definition sample_aggregation_swapped : list cores_bucket :=
  [(8, [("cms", [("N/A",
      [mkSiteBucket MISSING sample_bucket [("Tusker", sample_bucket)];
       mkSiteBucket "Crane" sample_bucket []])])])].

Definition failing_topology : response := mkResponse 503 ∅.

Definition sample_lines : list string :=
  ["# site factor"; "Nebraska 10"; "not a table line"; "Purdue 12";
   "Nebraska 11"].

(** * Properties *)

(** ** Python numbers *)

(** Goals on [Qc] are moved to [Q], where [lra] and [lia] apply. *)
Ltac qc_to_q :=
  unfold Py.float, Qcdiv, Qcminus, Qcle, Qclt, Qcplus, Qcmult, Qcopp, Qcinv,
         Q2Qc, Qc_of_Z in *;
  cbn [this] in *;
  rewrite ?Qred_correct in *.

Section PyFacts.

Lemma min_int_spec a b : Py.min_int a b = Z.min a b.
Proof. unfold Py.min_int. destruct (Z.ltb_spec b a); lia. Qed.

Lemma max_int_spec a b : Py.max_int a b = Z.max a b.
Proof. unfold Py.max_int. destruct (Z.ltb_spec a b); lia. Qed.

Lemma min_float_le_l a b : (Py.min_float a b <= a)%Qc.
Proof.
  unfold Py.min_float. case_decide as Hlt.
  - by apply Qclt_le_weak.
  - apply Qcle_refl.
Qed.

Lemma min_float_le_r a b : (Py.min_float a b <= b)%Qc.
Proof.
  unfold Py.min_float. case_decide as Hlt.
  - apply Qcle_refl.
  - by apply Qcnot_lt_le.
Qed.

Lemma min_float_cases a b :
  Py.min_float a b = a \/ Py.min_float a b = b.
Proof. unfold Py.min_float. case_decide; auto. Qed.

Lemma min_float_glb a b c :
  (c <= a)%Qc -> (c <= b)%Qc -> (c <= Py.min_float a b)%Qc.
Proof. intros. destruct (min_float_cases a b) as [-> | ->]; done. Qed.

Lemma min_float_comm a b : Py.min_float a b = Py.min_float b a.
Proof.
  apply Qcle_antisym; apply min_float_glb;
    auto using min_float_le_l, min_float_le_r.
Qed.

Lemma min_float_assoc a b c :
  Py.min_float (Py.min_float a b) c = Py.min_float a (Py.min_float b c).
Proof.
  apply Qcle_antisym; repeat apply min_float_glb;
    eauto using min_float_le_l, min_float_le_r, Qcle_trans.
Qed.

Lemma int_float z : Py.int (Py.float z) = z.
Proof. unfold Py.int, Py.float, Qc_of_Z. cbn. apply Z.quot_1_r. Qed.

Lemma float_le a b : (Py.float a <= Py.float b)%Qc <-> a <= b.
Proof. qc_to_q. unfold Qle. cbn. lia. Qed.

Lemma float_add a b : Py.float (a + b) = (Py.float a + Py.float b)%Qc.
Proof. apply Z2Qc_inj_add. Qed.

(** On a non-negative float, [int] is the floor. *)
Lemma int_nonneg_bounds (x : Qc) :
  (0 <= x)%Qc ->
  0 <= Py.int x /\
  (Py.float (Py.int x) <= x)%Qc /\ (x - 1 < Py.float (Py.int x))%Qc.
Proof.
  intros Hx. unfold Py.int. destruct x as [[n d] Hc].
  qc_to_q. unfold Qle, Qlt in *. cbn in *.
  assert (Hn : 0 <= n) by lia.
  rewrite Z.quot_div_nonneg by lia.
  pose proof (Z.mul_div_le n (Z.pos d) ltac:(lia)).
  pose proof (Z.mul_succ_div_gt n (Z.pos d) ltac:(lia)).
  split; [apply Z.div_pos; lia|]. split; lia.
Qed.

End PyFacts.

(** ** The merge of records *)

Section Merge.

Lemma record_adder_comm a b : record_adder a b = record_adder b a.
Proof.
  unfold record_adder. rewrite !min_int_spec, !max_int_spec.
  f_equal; try lia. apply min_float_comm.
Qed.

Lemma record_adder_assoc a b c :
  record_adder (record_adder a b) c = record_adder a (record_adder b c).
Proof.
  unfold record_adder. cbn. rewrite !min_int_spec, !max_int_spec.
  f_equal; try lia. apply min_float_assoc.
Qed.

(** Folding from a record already in the accumulator. *)
Lemma foldl_add_Rec r l :
  foldl add (Rec r) l = Rec (foldl record_adder r l).
Proof. revert r. induction l as [|x l IH]; intros r; cbn; [done | apply IH]. Qed.

Lemma foldl_record_adder_shift r x l :
  foldl record_adder (record_adder r x) l = record_adder (foldl record_adder r l) x.
Proof.
  revert r. induction l as [|y l IH]; intros r; cbn; [done |].
  rewrite <- IH. f_equal.
  rewrite !record_adder_assoc. f_equal. apply record_adder_comm.
Qed.

Lemma foldl_record_adder_perm r l l' :
  l ≡ₚ l' -> foldl record_adder r l = foldl record_adder r l'.
Proof.
  intros Hp. revert r.
  induction Hp as [|x l l' _ IH|x y l|l1 l2 l3 _ IH1 _ IH2]; intros r; cbn.
  - done.
  - apply IH.
  - f_equal. rewrite !record_adder_assoc. f_equal. apply record_adder_comm.
  - by rewrite IH1.
Qed.

Lemma merge_leaves_cons r l :
  merge_leaves (r :: l) = Rec (foldl record_adder r l).
Proof. unfold merge_leaves. cbn. apply foldl_add_Rec. Qed.

Lemma merge_leaves_perm l l' : l ≡ₚ l' -> merge_leaves l = merge_leaves l'.
Proof.
  intros Hp.
  induction Hp as [|x l l' Hp _|x y l|l1 l2 l3 _ IH1 _ IH2].
  - done.
  - rewrite !merge_leaves_cons. f_equal. by apply foldl_record_adder_perm.
  - rewrite !merge_leaves_cons. cbn. f_equal. f_equal. apply record_adder_comm.
  - by rewrite IH1.
Qed.

End Merge.

(** C3.  [record_adder] is associative and commutative: it takes the
    minimum of [mintime], the maximum of [maxtime], the sums of [walldur],
    [cpudur] and [njobs] and the minimum of the two resolved factors; hence
    the leaves that share a key merge to the same record in whatever order
    they are folded into the accumulator. *)
Theorem record_adder_assoc_comm :
  (forall a b c,
      record_adder (record_adder a b) c = record_adder a (record_adder b c)) /\
  (forall a b, record_adder a b = record_adder b a) /\
  (forall a b,
      record_adder a b =
      mkRecord (Z.min (mintime a) (mintime b)) (Z.max (maxtime a) (maxtime b))
               (walldur a + walldur b) (cpudur a + cpudur b)
               (nf (record_adder a b)) (njobs a + njobs b) /\
      (nf (record_adder a b) <= nf a)%Qc /\ (nf (record_adder a b) <= nf b)%Qc /\
      (nf (record_adder a b) = nf a \/ nf (record_adder a b) = nf b)) /\
  (forall l l', l ≡ₚ l' -> merge_leaves l = merge_leaves l').
Proof.
  split; [apply record_adder_assoc|].
  split; [apply record_adder_comm|].
  split; [|apply merge_leaves_perm].
  intros a b. unfold record_adder. cbn.
  rewrite min_int_spec, max_int_spec.
  auto using min_float_le_l, min_float_le_r, min_float_cases.
Qed.

(** C7.  The merge of two records that satisfy the record invariant
    ([mintime <= maxtime], non-negative durations and job count) satisfies
    it too. *)
Theorem record_adder_preserves_inv (a b : Record_) :
  Record_inv a -> Record_inv b ->
  Record_inv (record_adder a b) /\
  Z.min (mintime a) (mintime b) <= Z.max (maxtime a) (maxtime b) /\
  0 <= walldur a + walldur b /\ 0 <= cpudur a + cpudur b /\
  0 <= njobs a + njobs b.
Proof.
  unfold Record_inv, record_adder. cbn.
  rewrite min_int_spec, max_int_spec. lia.
Qed.

Lemma record_adder_preserves_inv_witness :
  Record_inv sample_leaf_a /\ Record_inv sample_leaf_b /\
  Record_inv (record_adder sample_leaf_a sample_leaf_b).
Proof.
  assert (Ha : Record_inv sample_leaf_a) by (unfold Record_inv; cbn; lia).
  assert (Hb : Record_inv sample_leaf_b) by (unfold Record_inv; cbn; lia).
  split; [exact Ha|]. split; [exact Hb|].
  exact (proj1 (record_adder_preserves_inv sample_leaf_a sample_leaf_b Ha Hb)).
Defined.

(** ** [math.isclose] against zero *)

Lemma Qc_neq_0 (p : Qc) : p <> Q2Qc 0 -> ~ (this p == 0)%Q.
Proof. intros Hne E. apply Hne. by apply Qc_is_canon. Qed.

(** With the default tolerances the test against [0.0] is the exact one. *)
Lemma isclose_zero_iff p : Py.isclose p (Q2Qc 0) = true <-> p = Q2Qc 0.
Proof.
  unfold Py.isclose, Py.isclose_tol. case_decide as Heq; [done|].
  split; [|done]. intros H. exfalso.
  apply Qc_neq_0 in Heq.
  rewrite !orb_true_iff, !bool_decide_eq_true in H.
  unfold Py.fabs, Py.rel_tol_default, Py.abs_tol_default in H.
  repeat case_decide; qc_to_q; destruct H as [[H|H]|H]; lra.
Qed.

Lemma isclose_zero_decide p :
  Py.isclose p (Q2Qc 0) = bool_decide (p = Q2Qc 0).
Proof.
  destruct (Py.isclose p (Q2Qc 0)) eqn:E; symmetry.
  - by apply bool_decide_eq_true, isclose_zero_iff.
  - apply bool_decide_eq_false. intros Hp. apply isclose_zero_iff in Hp. congruence.
Qed.

(** ** Streams *)

Lemma written_append_line f l s :
  written (append_line f l s) f = written s f ++ [l].
Proof. destruct f; cbn; [done..|]. by rewrite lookup_insert_eq. Qed.

Lemma written_append_line_ne f g l s :
  g <> f -> written (append_line f l s) g = written s g.
Proof.
  intros Hne. destruct f, g; cbn; try done.
  rewrite lookup_insert_ne; [done|congruence].
Qed.

Lemma resource_group_map_append_line f l s :
  resource_group_map (append_line f l s) = resource_group_map s.
Proof. by destruct f. Qed.

Lemma field_values_app label xs ys :
  field_values label (xs ++ ys) = field_values label xs ++ field_values label ys.
Proof. apply omap_app. Qed.

(** ** Running the resolver and the emitter *)

Lemma dn_eqb (x : string) :
  (if decide (x = "N/A") then true else false) = String.eqb x "N/A".
Proof.
  case_decide as H; symmetry; [by apply String.eqb_eq | by apply String.eqb_neq].
Qed.

Section Run.

Context (topology : response).



(** The first call downloads, parses and caches. *)
Lemma get_hs23_portion_fetch s name :
  resource_group_map s = None -> status_code topology = 200 ->
  get_hs23_portion topology name s =
  Ok (default (Q2Qc 0) (parse_resource_groups (json topology) !! name))
     (mkState (Some (parse_resource_groups (json topology)))
              (files s) (stdout s) (stderr s)).
Proof.
  intros H H200. unfold get_hs23_portion, mbind, M_bind, get_state.
  rewrite H. by case_decide.
Qed.

Lemma get_hs23_portion_streams s name p s1 :
  get_hs23_portion topology name s = Ok p s1 ->
  files s1 = files s /\ stdout s1 = stdout s /\ stderr s1 = stderr s.
Proof.
  unfold get_hs23_portion, mbind, M_bind, get_state.
  destruct (resource_group_map s) as [m|] eqn:Hm.
  - cbn. by intros [= _ <-].
  - case_decide; [done|]. cbn. by intros [= _ <-].
Qed.

Lemma get_hs23_portion_written s name p s1 f :
  get_hs23_portion topology name s = Ok p s1 -> written s1 f = written s f.
Proof.
  intros (Hf & Ho & He)%get_hs23_portion_streams.
  destruct f; cbn; congruence.
Qed.

(** One call of [print_rk_recr]: the block for [hepspec-hosts], then, if
    the list of submit hosts was extended, the block for
    [hepscore-hosts]. *)
Lemma print_rk_recr_run year month rk rec f s p s1 :
  get_hs23_portion topology (rk_site rk) s = Ok p s1 ->
  exists s2,
    print_rk_recr topology year month rk rec f s = Ok tt s2 /\
    written s2 f =
      written s f ++
      apel_block year month rk rec "hepspec-hosts" (1 - p)%Qc "hepspec" ++
      (if Py.isclose p (Q2Qc 0) then []
       else apel_block year month rk rec "hepscore-hosts" p "HEPscore23") /\
    resource_group_map s2 = resource_group_map s1 /\
    (forall g, g <> f -> written s2 g = written s g).
Proof.
  intros Hp. unfold print_rk_recr.
  unfold mbind at 1, M_bind at 1. rewrite Hp.
  replace (maxtime rec + 60 * 60 * 24 - 1) with (maxtime rec + 86399) by lia.
  assert (Hdn : (if decide (rk_dn rk = "N/A")
                 then "generic " +:+ rk_vo rk +:+ " user" else rk_dn rk) =
                (if String.eqb (rk_dn rk) "N/A"
                 then "generic " +:+ rk_vo rk +:+ " user" else rk_dn rk)).
  { rewrite <- dn_eqb. by case_decide. }
  rewrite Hdn. clear Hdn.
  pose proof (fun g => get_hs23_portion_written s _ p s1 g Hp) as Hw.
  destruct (Py.isclose p (Q2Qc 0)); cbn [negb app length seq for_each];
    (eexists; split; [reflexivity|]; split; [|split];
     [ rewrite !written_append_line, Hw, <- !app_assoc; reflexivity
     | by rewrite !resource_group_map_append_line
     | intros g Hg; by rewrite !written_append_line_ne, Hw ]).
Qed.

End Run.

(** The values one block prints under the labels the properties read. *)
Lemma field_values_block year month rk rec host portion metric :
  let block := apel_block year month rk rec host portion metric in
  field_values "SubmitHost: " block = [host] /\
  field_values "LatestEndTime: " block = [Py.str (maxtime rec + 86399)] /\
  field_values "WallDuration: " block =
    [Py.str (Py.int (Py.float (walldur rec) * portion)%Qc)] /\
  field_values "CpuDuration: " block =
    [Py.str (Py.int (Py.float (cpudur rec) * portion)%Qc)] /\
  field_values "NormalisedWallDuration: " block =
    ["{" +:+ metric +:+ ": " +:+
     Py.str (Py.int (Py.float (walldur rec) * nf rec * portion)%Qc) +:+ "}"] /\
  field_values "NormalisedCpuDuration: " block =
    ["{" +:+ metric +:+ ": " +:+
     Py.str (Py.int (Py.float (cpudur rec) * nf rec * portion)%Qc) +:+ "}"] /\
  field_values "NumberOfJobs: " block =
    [Py.str (Py.int (Py.float (njobs rec) * portion)%Qc)] /\
  field_values "%%" block = [""].
Proof.
  lazy -[Py.str Py.int Py.fmt_02d Py.float Qcmult Qcminus].
  repeat split; reflexivity.
Qed.

(** ** The report emitter *)



(** C5.  Every block [print_rk_recr] prints for a record carries one
    LatestEndTime line, and its value is the record's [maxtime] plus
    86399. *)
Theorem latest_end_time_output topology year month rk rec f s p s1 :
  get_hs23_portion topology (rk_site rk) s = Ok p s1 ->
  exists s2 out,
    print_rk_recr topology year month rk rec f s = Ok tt s2 /\
    written s2 f = written s f ++ out /\
    let blocks := length (field_values fixed_separator out) in
    (1 <= blocks)%nat /\
    field_values "LatestEndTime: " out =
      replicate blocks (Py.str (maxtime rec + 86399)).
Proof.
  intros Hp.
  destruct (print_rk_recr_run topology year month rk rec f s p s1 Hp)
    as (s2 & Hrun & Hout & _).
  eexists s2, _. split; [exact Hrun|]. split; [exact Hout|].
  unfold fixed_separator.
  rewrite !field_values_app.
  pose proof (field_values_block year month rk rec "hepspec-hosts"
                (1 - p)%Qc "hepspec") as (_ & -> & _ & _ & _ & _ & _ & ->).
  destruct (Py.isclose p (Q2Qc 0)).
  - cbn. split; [lia | done].
  - pose proof (field_values_block year month rk rec "hepscore-hosts"
                  p "HEPscore23") as (_ & -> & _ & _ & _ & _ & _ & ->).
    cbn. split; [lia | done].
Qed.

Lemma latest_end_time_output_witness :
  exists s2 out,
    print_rk_recr sample_topology 2024 3 (sample_key "UChicago") sample_record
                  (File "03_2024.apel") initial_state = Ok tt s2 /\
    written s2 (File "03_2024.apel") =
      written initial_state (File "03_2024.apel") ++ out /\
    let blocks := length (field_values fixed_separator out) in
    (1 <= blocks)%nat /\
    field_values "LatestEndTime: " out =
      replicate blocks (Py.str (maxtime sample_record + 86399)).
Proof.
  apply (latest_end_time_output sample_topology 2024 3 (sample_key "UChicago")
           sample_record (File "03_2024.apel") initial_state
           (sample_portion "UChicago")
           (fetched sample_topology initial_state)).
  reflexivity.
Defined.

(** C10.  With the default tolerances of [math.isclose] (a relative
    tolerance, absolute tolerance 0) the test against 0.0 holds exactly for
    the portion 0.0: [print_rk_recr] prints one block when the portion is
    0.0 and two blocks for every other portion, however small. *)
Theorem isclose_zero_exact topology year month rk rec f s p s1 :
  get_hs23_portion topology (rk_site rk) s = Ok p s1 ->
  (Py.isclose p (Q2Qc 0) = true <-> p = Q2Qc 0) /\
  exists s2 out,
    print_rk_recr topology year month rk rec f s = Ok tt s2 /\
    written s2 f = written s f ++ out /\
    field_values "SubmitHost: " out =
      (if decide (p = Q2Qc 0) then ["hepspec-hosts"]
       else ["hepspec-hosts"; "hepscore-hosts"]) /\
    (length (field_values fixed_separator out) = 1%nat <-> p = Q2Qc 0) /\
    (length (field_values fixed_separator out) = 2%nat <-> p <> Q2Qc 0).
Proof.
  intros Hp. split; [apply isclose_zero_iff|].
  destruct (print_rk_recr_run topology year month rk rec f s p s1 Hp)
    as (s2 & Hrun & Hout & _).
  eexists s2, _. split; [exact Hrun|]. split; [exact Hout|].
  unfold fixed_separator. rewrite !field_values_app.
  pose proof (field_values_block year month rk rec "hepspec-hosts"
                (1 - p)%Qc "hepspec") as (-> & _ & _ & _ & _ & _ & _ & ->).
  rewrite isclose_zero_decide.
  case_decide as Hz.
  - rewrite bool_decide_eq_true_2 by done. cbn. by repeat split.
  - rewrite bool_decide_eq_false_2 by done.
    pose proof (field_values_block year month rk rec "hepscore-hosts"
                  p "HEPscore23") as (-> & _ & _ & _ & _ & _ & _ & ->).
    cbn. by repeat split.
Qed.

Lemma isclose_zero_exact_witness :
  (Py.isclose (sample_portion "Caltech") (Q2Qc 0) = true <->
   sample_portion "Caltech" = Q2Qc 0) /\
  exists s2 out,
    print_rk_recr sample_topology 2024 3 (sample_key "Caltech") sample_record
                  Stdout initial_state = Ok tt s2 /\
    written s2 Stdout = written initial_state Stdout ++ out /\
    field_values "SubmitHost: " out =
      (if decide (sample_portion "Caltech" = Q2Qc 0) then ["hepspec-hosts"]
       else ["hepspec-hosts"; "hepscore-hosts"]) /\
    (length (field_values fixed_separator out) = 1%nat <->
     sample_portion "Caltech" = Q2Qc 0) /\
    (length (field_values fixed_separator out) = 2%nat <->
     sample_portion "Caltech" <> Q2Qc 0).
Proof.
  apply (isclose_zero_exact sample_topology 2024 3 (sample_key "Caltech")
           sample_record Stdout initial_state (sample_portion "Caltech")
           (fetched sample_topology initial_state)).
  reflexivity.
Defined.

(** ** Splitting a record between the two submit hosts *)





(** ** Sums and means *)

Section Means.

Lemma foldl_Qcplus a xs :
  foldl Qcplus a xs = (a + foldr Qcplus (Q2Qc 0) xs)%Qc.
Proof.
  revert a. induction xs as [|x xs IH]; intros a; cbn.
  - by rewrite Qcplus_0_r.
  - rewrite IH. ring.
Qed.

Lemma sum_foldr xs : Py.sum xs = foldr Qcplus (Q2Qc 0) xs.
Proof. unfold Py.sum. rewrite foldl_Qcplus. apply Qcplus_0_l. Qed.

Lemma mean_arith_mean xs : Py.mean xs = arith_mean xs.
Proof. unfold Py.mean, arith_mean, Py.float, Py.len. by rewrite sum_foldr. Qed.


Lemma float_len_pos {A} (xs : list A) :
  xs <> [] -> (0 < Py.float (Py.len xs))%Qc.
Proof.
  destruct xs as [|x xs]; [done|]. intros _.
  unfold Py.len. cbn [length]. qc_to_q. unfold Qlt. cbn. lia.
Qed.



Lemma arith_mean_singleton v : arith_mean [v] = v.
Proof.
  unfold arith_mean. cbn. rewrite Qcplus_0_r.
  change (Qc_of_Z 1) with (Q2Qc 1). unfold Qcdiv.
  apply Qc_is_canon. qc_to_q. field.
Qed.

End Means.

(** ** The HEPScore23 portion *)




(** ** The normalization factor *)

Section NormFactor.

Context (nf_table : gmap string Qc).

(** The two stages of [norm_factor]. *)
Lemma norm_factor_two_stage bkt site :
  norm_factor nf_table bkt site =
  let resolved :=
    first_stage (filter (fun key => (0 < key)%Qc) (NormalFactor bkt)) in
  if decide (Py.float 200 <= resolved)%Qc
  then default (Py.float 12) (nf_table !! site)
  else resolved.
Proof.
  cbv zeta.
  set (positives := filter (fun key => (0 < key)%Qc) (NormalFactor bkt)).
  assert (Hstage :
    (if decide (Py.len positives = 0) then Py.float 12
     else if decide (Py.len positives = 1)
          then default (Py.float 12) (positives !! 0%nat)
          else (1 * Py.sum positives / Py.float (Py.len positives))%Qc)
    = first_stage positives).
  { unfold first_stage.
    destruct positives as [|v [|w rest]]; unfold Py.len; cbn [length];
      repeat case_decide; try lia; try done.
    rewrite Qcmult_1_l. apply mean_arith_mean. }
  unfold norm_factor. cbv zeta. fold positives. rewrite Hstage.
  case_decide; [by destruct (nf_table !! site) | done].
Qed.

Lemma foldr_Qcplus_pos xs :
  xs <> [] -> Forall (fun v => (0 < v)%Qc) xs ->
  (0 < foldr Qcplus (Q2Qc 0) xs)%Qc.
Proof.
  intros Hne Hall. induction Hall as [|x xs Hx Hall IH]; [done|].
  cbn [foldr]. destruct xs as [|y ys].
  - cbn. by rewrite Qcplus_0_r.
  - apply Qcplus_pos_pos; [done | by apply IH].
Qed.

Lemma first_stage_pos positives :
  Forall (fun v => (0 < v)%Qc) positives -> (0 < first_stage positives)%Qc.
Proof.
  intros Hall. unfold first_stage.
  destruct positives as [|v [|w rest]].
  - by vm_compute.
  - by inversion Hall.
  - unfold arith_mean, Qcdiv. apply Qcmult_pos_pos.
    + by apply foldr_Qcplus_pos.
    + apply Qcinv_pos. by apply (float_len_pos (v :: w :: rest)).
Qed.

(** With a table of positive factors, every resolved factor is positive. *)
Lemma norm_factor_pos bkt site :
  (forall v, nf_table !! site = Some v -> (0 < v)%Qc) ->
  (0 < norm_factor nf_table bkt site)%Qc.
Proof.
  intros Htable. rewrite norm_factor_two_stage. cbv zeta.
  case_decide.
  - destruct (nf_table !! site) as [v|]; cbn [default]; [by apply Htable|].
    by vm_compute.
  - apply first_stage_pos. apply Forall_forall. intros v Hv.
    by apply list_elem_of_filter in Hv as [Hv _].
Qed.

(** So is the factor of every record [bkt_record] builds. *)
Lemma bkt_record_nf_pos bkt site :
  (forall v, nf_table !! site = Some v -> (0 < v)%Qc) ->
  (0 < nf (bkt_record nf_table bkt site))%Qc.
Proof. intros Htable. unfold bkt_record. cbn [nf]. by apply norm_factor_pos. Qed.

End NormFactor.


(** ** Command-line arguments *)

Section Arguments.

Context (int_of_str : string -> option Z).

Lemma unpack_year_month_ok a b y m s :
  int_of_str a = Some y -> int_of_str b = Some m ->
  unpack_year_month int_of_str [a; b] s = Ok (y, m) s.
Proof.
  intros Ha Hb. unfold unpack_year_month, mbind, M_bind. cbn.
  rewrite Ha. cbn. rewrite Hb. done.
Qed.

Lemma unpack_year_month_raises args s :
  ~ year_month_args int_of_str args ->
  exists e, unpack_year_month int_of_str args s = Raise e s.
Proof.
  intros Hnot. unfold unpack_year_month, mbind, M_bind.
  destruct args as [|a [|b [|c rest]]]; cbn.
  - eauto.
  - destruct (int_of_str a); cbn; eauto.
  - destruct (int_of_str a) as [y|] eqn:Ha; cbn; [|eauto].
    destruct (int_of_str b) as [m|] eqn:Hb; cbn; [|eauto].
    destruct Hnot. by exists a, b, y, m.
  - destruct (int_of_str a); cbn; [|eauto].
    destruct (int_of_str b); cbn; [|eauto].
    destruct (int_of_str c); cbn; eauto.
Qed.

End Arguments.

(** C8.  When arguments are given and they are not exactly two tokens that
    [int] accepts, [main] prints the usage line on the error stream and
    exits with status 0; it opens no file and prints nothing on the
    standard output. *)
Theorem main_usage_error int_of_str file_basename today gracc_query_apel
    topology nf_table argv s :
  tail argv <> [] ->
  ~ year_month_args int_of_str (tail argv) ->
  let r := main int_of_str file_basename today gracc_query_apel topology
                nf_table argv s in
  r = Raise (SystemExit 0)
            (append_line Stderr ("usage: " +:+ file_basename +:+ " [YEAR MONTH]") s) /\
  exit_status r = 0 /\
  stderr (final_state r) =
    stderr s ++ ["usage: " +:+ file_basename +:+ " [YEAR MONTH]"] /\
  files (final_state r) = files s /\
  stdout (final_state r) = stdout s /\
  resource_group_map (final_state r) = resource_group_map s.
Proof.
  intros Hargs Hnot r.
  assert (Hr : r = Raise (SystemExit 0)
                 (append_line Stderr
                    ("usage: " +:+ file_basename +:+ " [YEAR MONTH]") s)).
  { unfold r, main. unfold mbind at 1, M_bind at 1.
    rewrite decide_False.
    2:{ unfold Py.len. destruct (tail argv); [done | cbn; lia]. }
    unfold try_except.
    destruct (unpack_year_month_raises int_of_str (tail argv) s Hnot) as [e ->].
    reflexivity. }
  rewrite Hr. by repeat split.
Qed.

Lemma main_usage_error_witness :
  exit_status
    (main sample_int_of_str "apel_report.py" (2024, 3, 15) (fun _ _ => inr [])
          sample_topology ∅ ["apel_report.py"; "2024"; "March"] initial_state)
  = 0 /\
  stderr
    (final_state
       (main sample_int_of_str "apel_report.py" (2024, 3, 15) (fun _ _ => inr [])
             sample_topology ∅ ["apel_report.py"; "2024"; "March"] initial_state))
  = ["usage: apel_report.py [YEAR MONTH]"].
Proof.
  assert (Hargs : tail ["apel_report.py"; "2024"; "March"] <> @nil string) by done.
  assert (Hnot : ~ year_month_args sample_int_of_str
                   (tail ["apel_report.py"; "2024"; "March"])).
  { intros (a & b & y & m & [= <- <-] & _ & Hm). vm_compute in Hm. discriminate. }
  destruct (main_usage_error sample_int_of_str "apel_report.py" (2024, 3, 15)
              (fun _ _ => inr []) sample_topology ∅
              ["apel_report.py"; "2024"; "March"] initial_state Hargs Hnot)
    as (_ & Hexit & Herr & _).
  split; [exact Hexit | exact Herr].
Defined.

(** ** The accumulator *)

Section Accumulator.

Context (nf_table : gmap string Qc).

Lemma iadd_item_lookup recs k r :
  iadd_item recs k r !! k = Some (add (default Autodict (recs !! k)) r).
Proof.
  unfold iadd_item, getitem.
  destruct (recs !! k) as [c|]; cbn; by rewrite lookup_insert_eq.
Qed.

Lemma iadd_item_lookup_ne recs k k' r :
  k' <> k -> iadd_item recs k r !! k' = recs !! k'.
Proof.
  intros Hne. unfold iadd_item, getitem.
  destruct (recs !! k) as [c|]; cbn; by rewrite ?lookup_insert_ne.
Qed.

(** [add_record] files the leaf under [leaf_key], with the factor resolved
    for the renamed site. *)
Lemma add_record_unfold recs vo site cores dn bkt :
  add_record nf_table recs vo site cores dn bkt =
  iadd_item recs (leaf_key vo site cores dn)
    (bkt_record nf_table bkt (rk_site (leaf_key vo site cores dn))).
Proof.
  unfold add_record, leaf_key, default.
  destruct (site_map !! site) as [site1|]; cbn [from_option id];
    match goal with
    | |- context [site_vo_map !! ?key] => destruct (site_vo_map !! key)
    end; reflexivity.
Qed.

Lemma add_leaves_lookup_ne recs leaves k :
  (forall l, l ∈ leaves -> key_of l <> k) ->
  add_leaves nf_table recs leaves !! k = recs !! k.
Proof.
  revert recs. induction leaves as [|l leaves IH]; intros recs Hall; [done|].
  unfold add_leaves in *. cbn [foldl]. rewrite IH.
  - rewrite add_record_unfold. apply iadd_item_lookup_ne.
    intros ->. by apply (Hall l); [left|].
  - intros l' Hl'. apply Hall. by right.
Qed.

End Accumulator.

(** C9.  A key that is not in the accumulator receives the record as it is:
    [recs[k] += r] first stores the empty [autodict], whose [__add__] returns
    the other operand, so [r] is what ends up under [k] and no other key
    changes.  Hence a key that a single leaf of the walk reaches holds that
    leaf's record. *)
Theorem autodict_add_identity nf_table recs k r before after vo site cores dn bkt :
  recs !! k = None ->
  (forall l, l ∈ before ++ after -> key_of l <> leaf_key vo site cores dn) ->
  add Autodict r = Rec r /\
  iadd_item recs k r !! k = Some (Rec r) /\
  (forall k', k' <> k -> iadd_item recs k r !! k' = recs !! k') /\
  add_leaves nf_table ∅ (before ++ (vo, site, cores, dn, bkt) :: after)
    !! leaf_key vo site cores dn
  = Some (Rec (bkt_record nf_table bkt (rk_site (leaf_key vo site cores dn)))).
Proof.
  intros Hfresh Hothers.
  split; [done|].
  split; [by rewrite iadd_item_lookup, Hfresh|].
  split; [intros k' Hk'; by apply iadd_item_lookup_ne|].
  unfold add_leaves. rewrite foldl_app. cbn [foldl].
  fold (add_leaves nf_table ∅ before).
  match goal with
  | |- foldl ?f ?a after !! _ = _ => change (foldl f a after) with (add_leaves nf_table a after)
  end.
  rewrite add_leaves_lookup_ne.
  2:{ intros l Hl. apply Hothers. apply elem_of_app. by right. }
  cbn. rewrite add_record_unfold, iadd_item_lookup.
  rewrite add_leaves_lookup_ne.
  2:{ intros l Hl. apply Hothers. apply elem_of_app. by left. }
  by rewrite lookup_empty.
Qed.

Lemma autodict_add_identity_witness :
  add_leaves ∅ ∅
    ([("cms", "UChicago", 8, "N/A", sample_bucket)] ++
     ("cms", "Crane", 8, "N/A", sample_bucket) ::
     [("atlas", "Crane", 8, "N/A", sample_bucket)])
    !! leaf_key "cms" "Crane" 8 "N/A"
  = Some (Rec (bkt_record ∅ sample_bucket
                 (rk_site (leaf_key "cms" "Crane" 8 "N/A")))).
Proof.
  refine (proj2 (proj2 (proj2
    (autodict_add_identity ∅ ∅ (leaf_key "cms" "Crane" 8 "N/A") sample_record
       [("cms", "UChicago", 8, "N/A", sample_bucket)]
       [("atlas", "Crane", 8, "N/A", sample_bucket)]
       "cms" "Crane" 8 "N/A" sample_bucket _ _)))).
  - apply lookup_empty.
  - apply Forall_forall. repeat constructor; vm_compute; discriminate.
Defined.

(** ** The scenarios of the specification, run on the embedding *)

(** Two leaves with factors 8.0 and 16.0 merge to the sums of their
    durations and jobs and to the smaller factor. *)
Example merge_two_leaves :
  record_adder sample_leaf_a sample_leaf_b
  = mkRecord 1699990000 1700003600 150 300 (Py.float 8) 2.
Proof. vm_compute. reflexivity. Qed.

(** A whole run: both leaves are filed under Nebraska, and the site has no
    HEPScore23 portion, so the report is the header and one block. *)
Example main_single_block :
  written
    (final_state
       (main sample_int_of_str "apel_report.py" (2023, 12, 15)
             (fun _ _ => inr sample_aggregation) empty_topology ∅
             ["apel_report.py"; "2023"; "11"] initial_state))
    (File "11_2023.apel")
  = ["APEL-normalised-summary-message: v0.4";
     "Site: Nebraska"; "SubmitHost: hepspec-hosts"; "VO: cms";
     "EarliestEndTime: 1700000000"; "LatestEndTime: 1700086399";
     "Month: 11"; "Year: 2023"; "Infrastructure: grid";
     "GlobalUserName: generic cms user"; "Processors: 8"; "NodeCount: 1";
     "WallDuration: 7200"; "CpuDuration: 7200";
     "NormalisedWallDuration: {hepspec: 72000}";
     "NormalisedCpuDuration: {hepspec: 72000}"; "NumberOfJobs: 2"; "%%"].
Proof. vm_compute. reflexivity. Qed.

(** ** More on the accumulator *)

Lemma foldl_bind {A B C} (f : A -> C -> A) (g : B -> list C) (a : A) (l : list B) :
  foldl f a (l ≫= g) = foldl (fun a x => foldl f a (g x)) a l.
Proof.
  revert a. induction l as [|x l IH]; intros a; [done|].
  rewrite bind_cons, foldl_app. cbn [foldl]. apply IH.
Qed.

Lemma foldl_ext_in {A B} (f g : A -> B -> A) (a : A) (l : list B) :
  (forall a x, f a x = g a x) -> foldl f a l = foldl g a l.
Proof.
  intros Hfg. revert a. induction l as [|x l IH]; intros a; [done|].
  cbn [foldl]. rewrite Hfg. apply IH.
Qed.

Lemma bind_Permutation_ext {A B} (f g : A -> list B) (l l' : list A) :
  l ≡ₚ l' -> (forall x, f x ≡ₚ g x) -> l ≫= f ≡ₚ l' ≫= g.
Proof.
  intros Hl Hfg. rewrite <- Hl. clear l' Hl.
  induction l as [|x l IH]; [done|].
  rewrite !bind_cons. by rewrite Hfg, IH.
Qed.

Lemma add_add_comm c r1 r2 : add (add c r1) r2 = add (add c r2) r1.
Proof.
  destruct c as [|a]; cbn; f_equal.
  - apply record_adder_comm.
  - rewrite !record_adder_assoc. f_equal. apply record_adder_comm.
Qed.

Lemma iadd_item_comm recs k1 r1 k2 r2 :
  iadd_item (iadd_item recs k1 r1) k2 r2 = iadd_item (iadd_item recs k2 r2) k1 r1.
Proof.
  apply map_eq. intros j.
  destruct (decide (k1 = k2)) as [<-|Hk].
  - destruct (decide (j = k1)) as [->|Hj].
    + rewrite !iadd_item_lookup. cbn. f_equal. apply add_add_comm.
    + by rewrite !iadd_item_lookup_ne.
  - destruct (decide (j = k1)) as [->|Hj1]; [|destruct (decide (j = k2)) as [->|Hj2]].
    + rewrite (iadd_item_lookup_ne _ k2) by done.
      rewrite !iadd_item_lookup.
      by rewrite (iadd_item_lookup_ne _ k2) by done.
    + rewrite iadd_item_lookup.
      rewrite (iadd_item_lookup_ne _ k1) by done.
      rewrite (iadd_item_lookup_ne _ k1) by done.
      by rewrite iadd_item_lookup.
    + by rewrite !iadd_item_lookup_ne.
Qed.

Section AccumulatorFolds.

Context (nf_table : gmap string Qc).

Lemma add_leaves_cons recs (l : Leaf) leaves :
  add_leaves nf_table recs (l :: leaves) =
  add_leaves nf_table (iadd_item recs (key_of l) (leaf_record nf_table l)) leaves.
Proof.
  unfold add_leaves. cbn [foldl]. by rewrite add_record_unfold.
Qed.

Lemma add_leaves_Permutation recs leaves leaves' :
  leaves ≡ₚ leaves' ->
  add_leaves nf_table recs leaves = add_leaves nf_table recs leaves'.
Proof.
  intros Hp. revert recs.
  induction Hp as [|l ls ls' _ IH|l1 l2 ls|ls1 ls2 ls3 _ IH1 _ IH2]; intros recs.
  - done.
  - rewrite !add_leaves_cons. apply IH.
  - rewrite !add_leaves_cons. f_equal. apply iadd_item_comm.
  - by rewrite IH1.
Qed.

Lemma records_at_cons k (l : Leaf) leaves :
  records_at nf_table k (l :: leaves) =
  if decide (key_of l = k)
  then leaf_record nf_table l :: records_at nf_table k leaves
  else records_at nf_table k leaves.
Proof.
  unfold records_at. rewrite filter_cons. by case_decide.
Qed.

Lemma add_leaves_lookup_from recs leaves k :
  add_leaves nf_table recs leaves !! k =
  match records_at nf_table k leaves with
  | [] => recs !! k
  | rs => Some (foldl add (default Autodict (recs !! k)) rs)
  end.
Proof.
  revert recs. induction leaves as [|l leaves IH]; intros recs; [done|].
  rewrite add_leaves_cons, IH, records_at_cons.
  case_decide as Hk.
  - subst k. rewrite iadd_item_lookup. cbn [default from_option id foldl].
    by destruct (records_at nf_table (key_of l) leaves).
  - by rewrite iadd_item_lookup_ne.
Qed.

Lemma add_leaves_lookup_empty leaves k :
  add_leaves nf_table ∅ leaves !! k =
  match records_at nf_table k leaves with
  | [] => None
  | r :: rs => Some (Rec (foldl record_adder r rs))
  end.
Proof.
  rewrite add_leaves_lookup_from, lookup_empty.
  destruct (records_at nf_table k leaves) as [|r rs]; [done|].
  cbn [default from_option id foldl add]. by rewrite foldl_add_Rec.
Qed.

(** The loops of [main] add the leaves in the order of the sorted buckets. *)
Lemma walk_add_leaves aggs :
  walk nf_table aggs = add_leaves nf_table ∅ (leaves_by (@sorted_buckets) aggs).
Proof.
  unfold walk, add_leaves, leaves_by.
  rewrite foldl_bind. apply foldl_ext_in. intros recs1 cores_bkt.
  rewrite foldl_bind. apply foldl_ext_in. intros recs2 vo_bkt.
  rewrite foldl_bind. apply foldl_ext_in. intros recs3 dn_bkt.
  rewrite foldl_bind. apply foldl_ext_in. intros recs4 site_bkt.
  case_decide; [|done].
  rewrite foldl_bind. by apply foldl_ext_in.
Qed.

Lemma leaves_by_sorted_Permutation aggs :
  leaves_by (@sorted_buckets) aggs ≡ₚ leaves_of aggs.
Proof.
  unfold leaves_of, leaves_by, sorted_buckets.
  apply bind_Permutation_ext; [apply merge_sort_Permutation|]. intros cores_bkt.
  apply bind_Permutation_ext; [apply merge_sort_Permutation|]. intros vo_bkt.
  apply bind_Permutation_ext; [apply merge_sort_Permutation|]. intros dn_bkt.
  apply bind_Permutation_ext; [apply merge_sort_Permutation|]. intros site_bkt.
  case_decide; [|done].
  apply bind_Permutation_ext; [apply merge_sort_Permutation|done].
Qed.

Lemma walk_leaves_of aggs :
  walk nf_table aggs = add_leaves nf_table ∅ (leaves_of aggs).
Proof.
  rewrite walk_add_leaves.
  apply add_leaves_Permutation, leaves_by_sorted_Permutation.
Qed.

End AccumulatorFolds.

(** ** Totals over the accumulator *)

Section Totals.

Context (field : Record_ -> Z).

Lemma total_insert_fresh recs k c :
  recs !! k = None ->
  total field (<[k := c]> recs) = cell_field field c + total field recs.
Proof.
  intros Hk. unfold total. rewrite map_fold_insert_L; [done| |done].
  intros. lia.
Qed.

Lemma total_delete recs k c :
  recs !! k = Some c ->
  total field recs = cell_field field c + total field (delete k recs).
Proof.
  intros Hk. unfold total. rewrite (map_fold_delete_L _ _ k c); [done| |done].
  intros. lia.
Qed.

Lemma total_insert recs k c :
  total field (<[k := c]> recs) =
  cell_field field c + total field recs
  - cell_field field (default Autodict (recs !! k)).
Proof.
  destruct (recs !! k) as [c0|] eqn:Hk; cbn [default from_option id cell_field].
  - rewrite <- (insert_delete_eq recs k c).
    rewrite total_insert_fresh by apply lookup_delete_eq.
    rewrite (total_delete recs k c0 Hk). lia.
  - rewrite total_insert_fresh by done. lia.
Qed.

Hypothesis field_additive :
  forall a b, field (record_adder a b) = field a + field b.

Lemma total_iadd_item recs k r :
  total field (iadd_item recs k r) = total field recs + field r.
Proof.
  unfold iadd_item, getitem.
  destruct (recs !! k) as [c|] eqn:Hk.
  - cbn. rewrite total_insert, Hk.
    destruct c as [|a]; cbn; [|rewrite field_additive]; lia.
  - rewrite total_insert, lookup_insert_eq.
    rewrite total_insert, Hk. cbn. lia.
Qed.

Lemma total_add_leaves nf_table recs leaves :
  total field (add_leaves nf_table recs leaves) =
  total field recs + sum_list (field ∘ leaf_record nf_table <$> leaves).
Proof.
  revert recs. induction leaves as [|l leaves IH]; intros recs.
  - cbn. lia.
  - rewrite add_leaves_cons, IH, total_iadd_item, fmap_cons.
    unfold sum_list, compose. cbn [foldr]. lia.
Qed.

End Totals.

Lemma sum_list_Permutation xs ys : xs ≡ₚ ys -> sum_list xs = sum_list ys.
Proof.
  unfold sum_list. induction 1; cbn; lia.
Qed.

Lemma total_empty field : total field ∅ = 0.
Proof. unfold total. apply map_fold_empty. Qed.

(** ** Leaf records and the record invariant *)

Lemma int_mono_nonneg (x y : Qc) :
  (0 <= x)%Qc -> (x <= y)%Qc -> Py.int x <= Py.int y.
Proof.
  intros Hx Hxy.
  assert (Hy : (0 <= y)%Qc) by (by eapply Qcle_trans).
  destruct (int_nonneg_bounds x Hx) as (_ & Hx1 & _).
  destruct (int_nonneg_bounds y Hy) as (_ & _ & Hy2).
  destruct (Z_lt_le_dec (Py.int y) (Py.int x)) as [Hlt|]; [exfalso|done].
  assert (Hle : Py.int y + 1 <= Py.int x) by lia.
  apply float_le in Hle. rewrite float_add in Hle.
  change (Py.float 1) with (Qc_of_Z 1) in Hle. rewrite Z2Qc_inj_1 in Hle.
  qc_to_q. lra.
Qed.

Lemma div_1000_nonneg (x : Qc) : (0 <= x)%Qc -> (0 <= x / Py.float 1000)%Qc.
Proof.
  intros Hx. unfold Qcdiv. apply Qcmult_nonneg_nonneg; [done|].
  apply Qclt_le_weak, Qcinv_pos. by vm_compute.
Qed.

Lemma div_1000_mono (x y : Qc) :
  (x <= y)%Qc -> (x / Py.float 1000 <= y / Py.float 1000)%Qc.
Proof.
  intros Hxy. unfold Qcdiv. apply Qcmult_le_mono_nonneg_r; [|done].
  apply Qclt_le_weak, Qcinv_pos. by vm_compute.
Qed.

Lemma int_nonneg (x : Qc) : (0 <= x)%Qc -> 0 <= Py.int x.
Proof. intros Hx. by destruct (int_nonneg_bounds x Hx). Qed.

Lemma bkt_record_inv nf_table bkt site :
  bucket_wf bkt -> Record_inv (bkt_record nf_table bkt site).
Proof.
  intros (He & Hel & Hw & Hc & Hu & Hs & Hj).
  unfold Record_inv, bkt_record. cbn [mintime maxtime walldur cpudur njobs].
  split; [|split; [|split]].
  - apply int_mono_nonneg; [by apply div_1000_nonneg | by apply div_1000_mono].
  - by apply int_nonneg.
  - case_decide; apply int_nonneg; [done|]. by apply Qcplus_nonneg_nonneg.
  - by apply int_nonneg.
Qed.

Lemma record_adder_inv a b :
  Record_inv a -> Record_inv b -> Record_inv (record_adder a b).
Proof.
  unfold Record_inv, record_adder. cbn.
  rewrite min_int_spec, max_int_spec. lia.
Qed.

Lemma foldl_record_adder_inv r rs :
  Record_inv r -> Forall Record_inv rs -> Record_inv (foldl record_adder r rs).
Proof.
  intros Hr Hrs. revert r Hr.
  induction Hrs as [|x rs Hx _ IH]; intros r Hr; [done|].
  cbn [foldl]. apply IH. by apply record_adder_inv.
Qed.

Lemma elem_of_records_at nf_table k leaves r :
  r ∈ records_at nf_table k leaves <->
  exists l, l ∈ leaves /\ key_of l = k /\ r = leaf_record nf_table l.
Proof.
  unfold records_at. rewrite list_elem_of_fmap. split.
  - intros (l & -> & Hl). apply list_elem_of_filter in Hl as [Hk Hl]. eauto.
  - intros (l & Hl & Hk & ->). exists l. split; [done|].
    by apply list_elem_of_filter.
Qed.

Lemma records_at_nil nf_table k leaves :
  records_at nf_table k leaves = [] <-> forall l, l ∈ leaves -> key_of l <> k.
Proof.
  split.
  - intros Hnil l Hl Hk.
    assert (Hin : leaf_record nf_table l ∈ records_at nf_table k leaves).
    { apply elem_of_records_at. eauto. }
    rewrite Hnil in Hin. by apply not_elem_of_nil in Hin.
  - intros Hall. destruct (records_at nf_table k leaves) as [|r rs] eqn:E; [done|].
    assert (Hin : r ∈ records_at nf_table k leaves) by (rewrite E; left).
    apply elem_of_records_at in Hin as (l & Hl & Hk & _). by destruct (Hall l Hl).
Qed.

(** ** The accumulator after the walk *)

(** X1.  After the loops of [main], a key holds the merge, by
    [record_adder], of the records of exactly the leaves filed under it,
    and a key under which no leaf is filed is absent; the sorting of the
    buckets plays no part in it. *)
Theorem walk_merges_leaves nf_table aggs k :
  walk nf_table aggs !! k =
  match records_at nf_table k (leaves_of aggs) with
  | [] => None
  | r :: rs => Some (Rec (foldl record_adder r rs))
  end.
Proof. rewrite walk_leaves_of. apply add_leaves_lookup_empty. Qed.

(** X2.  Two replies with the same leaves, in whatever order their buckets
    come, give the same accumulator. *)
Theorem walk_order_irrelevant nf_table aggs aggs' :
  leaves_of aggs ≡ₚ leaves_of aggs' ->
  walk nf_table aggs = walk nf_table aggs'.
Proof.
  intros Hp. rewrite !walk_leaves_of. by apply add_leaves_Permutation.
Qed.

(** X3.  The keys of the accumulator are the keys of the leaves, and no
    key is left with the empty [autodict]: every value is a [Record]. *)
Theorem walk_keys nf_table aggs k :
  (is_Some (walk nf_table aggs !! k) <->
   exists l, l ∈ leaves_of aggs /\ key_of l = k) /\
  (forall c, walk nf_table aggs !! k = Some c -> exists r, c = Rec r).
Proof.
  rewrite walk_leaves_of, add_leaves_lookup_empty.
  destruct (records_at nf_table k (leaves_of aggs)) as [|r rs] eqn:E.
  - split; [|done]. split; [by intros [? ?]|].
    intros (l & Hl & Hk).
    by destruct (proj1 (records_at_nil nf_table k _) E l Hl).
  - split; [|intros c [= <-]; eauto]. split; [|eauto].
    intros _.
    assert (Hin : r ∈ records_at nf_table k (leaves_of aggs)) by (rewrite E; left).
    apply elem_of_records_at in Hin as (l & Hl & Hk & _). eauto.
Qed.

(** X4.  Nothing is lost or counted twice: the wall durations, the CPU
    durations and the job counts of the accumulator add up to those of the
    leaves. *)
Theorem walk_totals nf_table aggs :
  total walldur (walk nf_table aggs) =
    sum_list ((fun l : Leaf => Py.int (WallDuration l.2)) <$> leaves_of aggs) /\
  total cpudur (walk nf_table aggs) =
    sum_list ((fun l : Leaf => cpudur (leaf_record nf_table l)) <$> leaves_of aggs) /\
  total njobs (walk nf_table aggs) =
    sum_list ((fun l : Leaf => Py.int (NumberOfJobs l.2)) <$> leaves_of aggs).
Proof.
  rewrite walk_leaves_of.
  rewrite !total_add_leaves by done. rewrite !total_empty.
  repeat split; cbn; f_equal.
Qed.

(** X5.  When every leaf bucket is well formed, every record of the
    accumulator satisfies the record invariant. *)
Theorem walk_record_inv nf_table aggs k r :
  (forall l, l ∈ leaves_of aggs -> bucket_wf l.2) ->
  walk nf_table aggs !! k = Some (Rec r) ->
  Record_inv r.
Proof.
  intros Hwf. rewrite walk_leaves_of, add_leaves_lookup_empty.
  destruct (records_at nf_table k (leaves_of aggs)) as [|r0 rs] eqn:E; [done|].
  intros [= <-].
  assert (Hall : Forall Record_inv (records_at nf_table k (leaves_of aggs))).
  { apply Forall_forall. intros x (l & Hl & _ & ->)%elem_of_records_at.
    apply bkt_record_inv. by apply Hwf. }
  rewrite E in Hall. inversion Hall; subst.
  by apply foldl_record_adder_inv.
Qed.


(** ** The range of the normalization factor *)

(** X7.  [norm_factor] never returns a factor of 200 or more, or a factor
    that is not positive, of its own: its result lies strictly between 0
    and 200 unless it is the entry the normalization table has for the
    site. *)
Theorem norm_factor_range nf_table bkt site :
  ((0 < norm_factor nf_table bkt site)%Qc /\
   (norm_factor nf_table bkt site < Py.float 200)%Qc) \/
  nf_table !! site = Some (norm_factor nf_table bkt site).
Proof.
  rewrite norm_factor_two_stage. cbv zeta.
  set (positives := filter (fun key => (0 < key)%Qc) (NormalFactor bkt)).
  case_decide as Hbig.
  - destruct (nf_table !! site) as [v|]; cbn [default from_option id]; [by right|].
    left. split; by vm_compute.
  - left. split.
    + apply first_stage_pos, Forall_forall. intros v Hv.
      by apply list_elem_of_filter in Hv as [Hv _].
    + by apply Qcnot_le_lt.
Qed.

(** ** Site renaming *)

Lemma site_map_lookup site :
  site_map !! site =
  if decide (site = "Crane" \/ site = "Sandhills" \/ site = "Tusker")
  then Some "Nebraska" else None.
Proof.
  unfold site_map. cbn [list_to_map foldr fst snd].
  rewrite !lookup_insert, lookup_empty.
  repeat case_decide; try done; simplify_eq; intuition congruence.
Qed.

Lemma site_vo_map_lookup site vo :
  site_vo_map !! (site, vo) =
  if decide (site = "MIT_CMS" /\ vo = "lhcb") then Some "MIT_LHCb" else None.
Proof.
  unfold site_vo_map. cbn [list_to_map foldr fst snd].
  rewrite lookup_insert, lookup_empty.
  repeat case_decide; try done; simplify_eq; intuition congruence.
Qed.

Lemma leaf_key_site vo site cores dn :
  rk_site (leaf_key vo site cores dn) =
  if decide (site = "Crane" \/ site = "Sandhills" \/ site = "Tusker")
  then "Nebraska"
  else if decide (site = "MIT_CMS" /\ vo = "lhcb") then "MIT_LHCb" else site.
Proof.
  unfold leaf_key, rk_site, mkRecordKey. cbn [fst snd].
  rewrite site_map_lookup.
  case_decide as H1; cbn [default from_option id]; rewrite site_vo_map_lookup.
  - rewrite decide_False; [done|]. by intros [[=] _].
  - by case_decide.
Qed.

Lemma leaf_key_idem vo site cores dn :
  leaf_key vo (rk_site (leaf_key vo site cores dn)) cores dn
  = leaf_key vo site cores dn.
Proof.
  assert (Hs : rk_site (leaf_key vo (rk_site (leaf_key vo site cores dn)) cores dn)
               = rk_site (leaf_key vo site cores dn)).
  { rewrite (leaf_key_site vo (rk_site _)). rewrite leaf_key_site.
    repeat case_decide; try done; simplify_eq; intuition congruence. }
  unfold leaf_key, mkRecordKey, rk_site in *. cbn [fst snd] in *. by rewrite Hs.
Qed.

(** X8.  [add_record] renames the three Nebraska clusters to Nebraska and
    the site MIT_CMS of the VO lhcb to MIT_LHCb, and leaves every other
    site as it is; a renamed site is not renamed again, so that adding a
    leaf under the renamed site gives the same accumulator. *)
Theorem add_record_renames nf_table recs vo site cores dn bkt :
  let site' :=
    if decide (site = "Crane" \/ site = "Sandhills" \/ site = "Tusker")
    then "Nebraska"
    else if decide (site = "MIT_CMS" /\ vo = "lhcb") then "MIT_LHCb" else site in
  add_record nf_table recs vo site cores dn bkt =
    iadd_item recs (vo, site', cores, dn) (bkt_record nf_table bkt site') /\
  add_record nf_table recs vo site' cores dn bkt =
    add_record nf_table recs vo site cores dn bkt.
Proof.
  intros site'.
  assert (Hsite : rk_site (leaf_key vo site cores dn) = site') by apply leaf_key_site.
  assert (Hkey : leaf_key vo site cores dn = (vo, site', cores, dn)).
  { rewrite <- Hsite. reflexivity. }
  split.
  - by rewrite add_record_unfold, Hkey.
  - rewrite !add_record_unfold. rewrite <- Hsite. by rewrite leaf_key_idem.
Qed.

(** ** The order of the report *)

Lemma rk_compare_antisym a b : rk_compare b a = CompOpp (rk_compare a b).
Proof.
  unfold rk_compare.
  rewrite (String.compare_antisym (rk_vo b) (rk_vo a)).
  destruct (String.compare (rk_vo a) (rk_vo b)); cbn [CompOpp]; try done.
  rewrite (String.compare_antisym (rk_site b) (rk_site a)).
  destruct (String.compare (rk_site a) (rk_site b)); cbn [CompOpp]; try done.
  rewrite (Z.compare_antisym (rk_cores a) (rk_cores b)).
  destruct (Z.compare (rk_cores a) (rk_cores b)); cbn [CompOpp]; try done.
  apply String.compare_antisym.
Qed.

Lemma rk_compare_eq a b : rk_compare a b = Eq -> a = b.
Proof.
  unfold rk_compare, rk_vo, rk_site, rk_cores, rk_dn.
  destruct a as [[[v1 s1] c1] d1], b as [[[v2 s2] c2] d2]. cbn [fst snd].
  destruct (String.compare v1 v2) eqn:Hv; try done.
  destruct (String.compare s1 s2) eqn:Hs; try done.
  destruct (Z.compare c1 c2) eqn:Hc; try done.
  intros Hd.
  apply String.compare_eq_iff in Hv, Hs, Hd. apply Z.compare_eq in Hc.
  by subst.
Qed.

Lemma rk_le_total :
  Total (fun a b : RecordKey * cell => bool_decide (rk_compare a.1 b.1 <> Gt) : Prop).
Proof.
  intros a b. rewrite !bool_decide_spec.
  rewrite (rk_compare_antisym a.1 b.1).
  destruct (rk_compare a.1 b.1); cbn; auto.
Qed.

Lemma Sorted_strict (items : list (RecordKey * cell)) :
  NoDup items.*1 ->
  Sorted (fun a b => bool_decide (rk_compare a.1 b.1 <> Gt) : Prop) items ->
  Sorted (fun a b => rk_compare a.1 b.1 = Lt) items.
Proof.
  intros Hnd Hs. induction Hs as [|x l Hs IH Hhd]; [constructor|].
  apply NoDup_cons in Hnd as [Hx Hnd]. constructor; [by apply IH|].
  destruct Hhd as [|y l Hxy]; constructor.
  apply bool_decide_spec in Hxy.
  destruct (rk_compare x.1 y.1) eqn:Hc; [|done|done].
  apply rk_compare_eq in Hc. destruct Hx. rewrite Hc. cbn. left.
Qed.

(** X9.  The records are emitted in strictly increasing order of their
    keys, compared as tuples (VO, then site, then processors, then DN), and
    the sorted list holds exactly the items of the accumulator. *)
Theorem sorted_items_increasing (recs : gmap RecordKey cell) :
  sorted_items recs ≡ₚ map_to_list recs /\
  Sorted (fun a b => rk_compare a.1 b.1 = Lt) (sorted_items recs) /\
  (forall k c, (k, c) ∈ sorted_items recs <-> recs !! k = Some c).
Proof.
  assert (Hp : sorted_items recs ≡ₚ map_to_list recs)
    by apply merge_sort_Permutation.
  split; [exact Hp|]. split.
  - apply Sorted_strict.
    + rewrite Hp. apply NoDup_fst_map_to_list.
    + apply (@Sorted_merge_sort _ _ _ rk_le_total).
  - intros k c. rewrite Hp. apply elem_of_map_to_list.
Qed.

(** ** The month chosen without arguments *)

(** X10.  For a date whose month is between 1 and 12, [auto_year_month]
    returns a month between 1 and 12: the month of the date from the 4th
    day on, and the month before it, December of the year before for
    January, up to the 3rd. *)
Theorem auto_year_month_previous year month day :
  1 <= month <= 12 ->
  1 <= (auto_year_month (year, month, day)).2 <= 12 /\
  12 * (auto_year_month (year, month, day)).1 + (auto_year_month (year, month, day)).2
  = 12 * year + month - (if day <=? 3 then 1 else 0).
Proof.
  intros Hm. unfold auto_year_month.
  destruct (Z.leb_spec day 3); [|cbn; lia].
  destruct (Z.eqb_spec month 1); cbn; lia.
Qed.

(** ** The side table *)

Section TableFacts.

Context (split : string -> list string) (float_of_str : string -> option Qc).

(** One turn of the loop, by what the line contributes. *)
Lemma normal_hepspec_loop_cons line lines table :
  normal_hepspec_loop split float_of_str (line :: lines) table =
  match table_entry split line with
  | None => normal_hepspec_loop split float_of_str lines table
  | Some (site, nf) =>
      match float_of_str nf with
      | Some v => normal_hepspec_loop split float_of_str lines (<[site := v]> table)
      | None => inl (ValueError ("could not convert string to float: " +:+ nf))
      end
  end.
Proof.
  unfold table_entry. cbn [normal_hepspec_loop].
  destruct (String.prefix "#" line); [done|].
  destruct (split line) as [|a [|b [|c rest]]]; unfold Py.len; cbn [length];
    case_decide; try done; lia.
Qed.

Lemma last_cons_option {A} (x : A) (l : list A) :
  last (x :: l) = Some (default x (last l)).
Proof.
  revert x. induction l as [|y l IH]; intros x; [done|].
  change (last (x :: y :: l)) with (last (y :: l)). by rewrite !IH.
Qed.

Lemma factors_of_cons site line lines :
  factors_of split float_of_str site (line :: lines) =
  match table_entry split line with
  | Some (site', nf) =>
      if decide (site' = site) then
        match float_of_str nf with
        | Some v => v :: factors_of split float_of_str site lines
        | None => factors_of split float_of_str site lines
        end
      else factors_of split float_of_str site lines
  | None => factors_of split float_of_str site lines
  end.
Proof.
  unfold factors_of. cbn [omap list_omap].
  destruct (table_entry split line) as [[site' nf]|]; cbn; [|done].
  case_decide; [|done]. by destruct (float_of_str nf).
Qed.

Lemma normal_hepspec_loop_lookup lines table result site :
  normal_hepspec_loop split float_of_str lines table = inr result ->
  result !! site =
    match last (factors_of split float_of_str site lines) with
    | Some v => Some v
    | None => table !! site
    end.
Proof.
  revert table. induction lines as [|line lines IH]; intros table.
  - cbn. by intros [= ->].
  - rewrite normal_hepspec_loop_cons, factors_of_cons.
    destruct (table_entry split line) as [[site' nf]|] eqn:He; [|apply IH].
    destruct (float_of_str nf) as [v|] eqn:Hf; [|done].
    intros Hrun. rewrite (IH _ Hrun).
    case_decide as Hs.
    + subst site'. rewrite last_cons_option.
      destruct (last (factors_of split float_of_str site lines)); cbn; [done|].
      by rewrite lookup_insert_eq.
    + destruct (last (factors_of split float_of_str site lines)); [done|].
      by rewrite lookup_insert_ne.
Qed.

Lemma normal_hepspec_loop_filter lines table :
  normal_hepspec_loop split float_of_str (filter (fun line => is_Some (table_entry split line)) lines) table = normal_hepspec_loop split float_of_str lines table.
Proof.
  revert table. induction lines as [|line lines IH]; intros table; [done|].
  rewrite filter_cons. case_decide as He.
  - rewrite !normal_hepspec_loop_cons.
    destruct (table_entry split line) as [[site nf]|]; [|done].
    by destruct (float_of_str nf).
  - rewrite (normal_hepspec_loop_cons line).
    destruct (table_entry split line); [by destruct He|]. apply IH.
Qed.

Lemma normal_hepspec_loop_fails lines table :
  (exists e, normal_hepspec_loop split float_of_str lines table = inl e) <->
  exists line site nf,
    line ∈ lines /\ table_entry split line = Some (site, nf) /\ float_of_str nf = None.
Proof.
  revert table. induction lines as [|line lines IH]; intros table.
  - cbn. split; [by intros [? ?]|].
    intros (line & ? & ? & Hin & _). by apply not_elem_of_nil in Hin.
  - rewrite normal_hepspec_loop_cons.
    destruct (table_entry split line) as [[site nf]|] eqn:He.
    + destruct (float_of_str nf) as [v|] eqn:Hf.
      * rewrite IH. split.
        -- intros (l & s & n & Hin & ? & ?). exists l, s, n. split; [by right|done].
        -- intros (l & s & n & Hin & Hl & Hn).
           apply elem_of_cons in Hin as [->|Hin]; [congruence|]. eauto 10.
      * split; [|eauto]. intros _. exists line, site, nf. split; [left|done].
    + rewrite IH. split.
      * intros (l & s & n & Hin & ? & ?). exists l, s, n. split; [by right|done].
      * intros (l & s & n & Hin & Hl & Hn).
        apply elem_of_cons in Hin as [->|Hin]; [congruence|]. eauto 10.
Qed.

End TableFacts.

Lemma normal_hepspec_loop_error split float_of_str lines table e :
  normal_hepspec_loop split float_of_str lines table = inl e ->
  exists nf, e = ValueError ("could not convert string to float: " +:+ nf) /\
             float_of_str nf = None.
Proof.
  revert table. induction lines as [|line lines IH]; intros table; [done|].
  rewrite normal_hepspec_loop_cons.
  destruct (table_entry split line) as [[site nf]|]; [|apply IH].
  destruct (float_of_str nf) as [v|] eqn:Hf; [apply IH|].
  intros [= <-]. eauto.
Qed.

(** X11.  In a table that loaded, a site has the factor of the last line
    that names it, and no factor when no line names it. *)
Theorem normal_hepspec_table_last_wins split float_of_str lines table site :
  normal_hepspec_table split float_of_str lines = inr table ->
  table !! site = last (factors_of split float_of_str site lines).
Proof.
  intros Hrun. rewrite (normal_hepspec_loop_lookup _ _ _ _ _ site Hrun).
  rewrite lookup_empty. by destruct (last _).
Qed.

(** X12.  A line that starts with [#], or that does not split in exactly
    two tokens, changes nothing: the table, or the failure, is the one of
    the file without the line. *)
Theorem normal_hepspec_table_skips split float_of_str before line after :
  String.prefix "#" line = true \/ Py.len (split line) <> 2 ->
  normal_hepspec_table split float_of_str (before ++ line :: after) =
  normal_hepspec_table split float_of_str (before ++ after).
Proof.
  intros Hskip.
  assert (He : table_entry split line = None).
  { unfold table_entry. destruct Hskip as [-> | Hlen]; [done|].
    destruct (String.prefix "#" line); [done|].
    destruct (split line) as [|a [|b [|c rest]]]; try done. }
  unfold normal_hepspec_table.
  rewrite <- (normal_hepspec_loop_filter _ _ (before ++ line :: after)).
  rewrite <- (normal_hepspec_loop_filter _ _ (before ++ after)).
  rewrite !filter_app, filter_cons_False; [done|].
  rewrite He. by intros [? ?].
Qed.

(** X13.  Loading fails exactly when some line that is not a comment
    splits in two tokens of which the second is not a number; the failure
    is the [ValueError] of [float]. *)
Theorem normal_hepspec_table_fails split float_of_str lines :
  ((exists e, normal_hepspec_table split float_of_str lines = inl e) <->
   exists line site nf,
     line ∈ lines /\ table_entry split line = Some (site, nf) /\
     float_of_str nf = None) /\
  (forall e, normal_hepspec_table split float_of_str lines = inl e ->
     exists nf, e = ValueError ("could not convert string to float: " +:+ nf) /\
                float_of_str nf = None).
Proof.
  split; [apply normal_hepspec_loop_fails|].
  intros e. apply normal_hepspec_loop_error.
Qed.

(** ** A failed download *)

Lemma get_hs23_portion_fail topology name s :
  resource_group_map s = None -> status_code topology <> 200 ->
  get_hs23_portion topology name s =
  Raise (Exception ("Error downloading resource group summary from Topology: "
                    +:+ Py.str (status_code topology))) s.
Proof.
  intros Hnone Hcode. unfold get_hs23_portion, mbind, M_bind, get_state.
  rewrite Hnone. by rewrite decide_True.
Qed.

Lemma print_rk_recr_fail topology year month rk rec f s :
  resource_group_map s = None -> status_code topology <> 200 ->
  print_rk_recr topology year month rk rec f s =
  Raise (Exception ("Error downloading resource group summary from Topology: "
                    +:+ Py.str (status_code topology))) s.
Proof.
  intros Hnone Hcode. unfold print_rk_recr.
  unfold mbind at 1, M_bind at 1.
  by rewrite get_hs23_portion_fail.
Qed.

(** X14.  When nothing is cached and Topology does not answer 200,
    [get_hs23_portion] raises, caches nothing and a later call asks again;
    [print_rk_recr] raises the same exception before it prints a line. *)
Theorem download_failure topology year month rk rec f name s :
  resource_group_map s = None -> status_code topology <> 200 ->
  let e := Exception ("Error downloading resource group summary from Topology: "
                      +:+ Py.str (status_code topology)) in
  get_hs23_portion topology name s = Raise e s /\
  print_rk_recr topology year month rk rec f s = Raise e s /\
  (forall other, status_code other = 200 ->
     get_hs23_portion other name s =
     Ok (default (Q2Qc 0) (parse_resource_groups (json other) !! name))
        (fetched other s)).
Proof.
  intros Hnone Hcode e.
  split; [by apply get_hs23_portion_fail|].
  split; [by apply print_rk_recr_fail|].
  intros other H200. by apply get_hs23_portion_fetch.
Qed.

(** ** The last loop of [main] *)





(** ** Whole runs of [main] *)

Section MainRuns.

Context (int_of_str : string -> option Z)
        (file_basename : string)
        (today : Z * Z * Z)
        (gracc_query_apel : Z -> Z -> exn + list cores_bucket)
        (topology : response)
        (nf_table : gmap string Qc).

Lemma walk_lookup_Rec aggs k c :
  walk nf_table aggs !! k = Some c -> exists r, c = Rec r.
Proof.
  rewrite walk_leaves_of, add_leaves_lookup_empty.
  destruct (records_at nf_table k (leaves_of aggs)); [done|].
  intros [= <-]. eauto.
Qed.

Lemma sorted_items_Rec aggs :
  Forall (fun item : RecordKey * cell => exists r, item.2 = Rec r)
         (sorted_items (walk nf_table aggs)).
Proof.
  apply Forall_forall. intros [k c] Hin.
  unfold sorted_items in Hin. rewrite merge_sort_Permutation in Hin.
  apply elem_of_map_to_list in Hin. by apply walk_lookup_Rec in Hin.
Qed.

Lemma sorted_items_nil (recs : gmap RecordKey cell) :
  sorted_items recs = [] <-> recs = ∅.
Proof.
  unfold sorted_items. split.
  - intros Hnil. apply map_to_list_empty_iff.
    apply Permutation_nil_r. rewrite <- Hnil. by rewrite merge_sort_Permutation.
  - intros ->. rewrite map_to_list_empty. done.
Qed.

(** The first statement of [main]. *)
Lemma main_year_month argv year month s :
  chosen_year_month int_of_str today argv (year, month) ->
  (if decide (Py.len (tail argv) = 0) then mret (auto_year_month today)
   else try_except (unpack_year_month int_of_str (tail argv))
          (_ ← print [usage file_basename] Stderr; raise (SystemExit 0))) s
  = Ok (year, month) s.
Proof.
  intros [[Hnil Hym] | (a & b & Hargs & Ha & Hb)].
  - rewrite Hnil. rewrite decide_True by done. by rewrite Hym.
  - rewrite Hargs. rewrite decide_False by done.
    unfold try_except. cbn [fst snd] in Ha, Hb.
    by rewrite (unpack_year_month_ok int_of_str a b year month s Ha Hb).
Qed.

Lemma main_run argv year month s :
  chosen_year_month int_of_str today argv (year, month) ->
  main int_of_str file_basename today gracc_query_apel topology nf_table argv s =
  let s1 := mkState (resource_group_map s)
                    (<[outfile_name year month := []]> (files s))
                    (stdout s) (stderr s) in
  match gracc_query_apel year month with
  | inl e => Raise e s1
  | inr aggs =>
      match for_each (sorted_items (walk nf_table aggs))
              (emit_item topology year month (File (outfile_name year month)))
              (append_line (File (outfile_name year month)) fixed_header s1) with
      | Ok _ s3 =>
          Ok tt (append_line Stdout ("wrote: " +:+ outfile_name year month) s3)
      | Raise e s3 => Raise e s3
      end
  end.
Proof.
  intros Hym. unfold main.
  unfold mbind at 1, M_bind at 1.
  rewrite (main_year_month argv year month s Hym).
  cbv zeta. cbn [fst snd].
  fold (outfile_name year month).
  unfold mbind at 1, M_bind at 1, open_w.
  destruct (gracc_query_apel year month) as [e|aggs]; [done|].
  unfold mbind at 1, M_bind at 1. unfold mret at 1, M_ret at 1.
  unfold mbind at 1, M_bind at 1, print_header, print at 1.
  cbn [String.concat].
  unfold mbind at 1, M_bind at 1.
  reflexivity.
Qed.

End MainRuns.




(** X16.  When the query raises, [main] ends with that exception; the
    output file has been opened before the query, so it is left behind
    empty, without the header, and nothing is printed. *)
Theorem main_query_failure int_of_str file_basename today gracc_query_apel
    topology nf_table argv year month e s :
  chosen_year_month int_of_str today argv (year, month) ->
  gracc_query_apel year month = inl e ->
  exists s',
    main int_of_str file_basename today gracc_query_apel topology nf_table argv s
    = Raise e s' /\
    files s' !! outfile_name year month = Some [] /\
    stdout s' = stdout s /\ stderr s' = stderr s /\
    resource_group_map s' = resource_group_map s.
Proof.
  intros Hym Hq.
  rewrite (main_run _ _ _ _ _ _ _ _ _ _ Hym), Hq. cbv zeta.
  eexists. split; [reflexivity|]. cbn. by rewrite lookup_insert_eq.
Qed.

(** X17.  When there is a record to print, nothing is cached and Topology
    does not answer 200, [main] ends with the exception of the download:
    the output file holds the header alone and the line that names the
    file is not printed. *)
Theorem main_download_failure int_of_str file_basename today gracc_query_apel
    topology nf_table argv year month aggs s :
  chosen_year_month int_of_str today argv (year, month) ->
  gracc_query_apel year month = inr aggs ->
  walk nf_table aggs <> ∅ ->
  resource_group_map s = None -> status_code topology <> 200 ->
  exists s',
    main int_of_str file_basename today gracc_query_apel topology nf_table argv s
    = Raise (Exception ("Error downloading resource group summary from Topology: "
                        +:+ Py.str (status_code topology))) s' /\
    written s' (File (outfile_name year month)) = [fixed_header] /\
    stdout s' = stdout s /\ stderr s' = stderr s.
Proof.
  intros Hym Hq Hne Hnone Hcode.
  rewrite (main_run _ _ _ _ _ _ _ _ _ _ Hym), Hq. cbv zeta.
  pose proof (sorted_items_Rec nf_table aggs) as Hall.
  destruct (sorted_items (walk nf_table aggs)) as [|[k c] items] eqn:Hitems.
  { destruct Hne. by apply sorted_items_nil. }
  apply Forall_cons in Hall as [[r Hr] _]. cbn in Hr. subst c.
  cbn [for_each]. unfold mbind, M_bind. unfold emit_item at 1. cbn [fst snd].
  rewrite print_rk_recr_fail; [|by rewrite resource_group_map_append_line|done].
  eexists. split; [reflexivity|].
  split; [|split].
  - rewrite written_append_line. cbn [written files]. by rewrite lookup_insert_eq.
  - change (stdout ?x) with (written x Stdout). by rewrite written_append_line_ne.
  - change (stderr ?x) with (written x Stderr). by rewrite written_append_line_ne.
Qed.

(** ** The identity fields of a block *)

Lemma field_values_identity year month rk rec host portion metric :
  let block := apel_block year month rk rec host portion metric in
  field_values "Site: " block = [rk_site rk] /\
  field_values "VO: " block = [rk_vo rk] /\
  field_values "Processors: " block = [Py.str (rk_cores rk)] /\
  field_values "EarliestEndTime: " block = [Py.str (mintime rec)] /\
  field_values "Month: " block = [Py.fmt_02d month] /\
  field_values "Year: " block = [Py.str year] /\
  field_values "GlobalUserName: " block =
    [if String.eqb (rk_dn rk) "N/A" then "generic " +:+ rk_vo rk +:+ " user"
     else rk_dn rk].
Proof.
  lazy -[Py.str Py.int Py.fmt_02d Py.float Qcmult Qcminus
         rk_site rk_vo rk_dn rk_cores String.eqb].
  repeat split; reflexivity.
Qed.

(** X18.  Every block printed for a record carries the site, the VO and
    the processors of its key, the earliest end time of the record and the
    month and year of the run; the user is the DN of the key, or the
    generic user of the VO when the DN is N/A. *)
Theorem block_identity topology year month rk rec f s p s1 :
  get_hs23_portion topology (rk_site rk) s = Ok p s1 ->
  exists s2 out,
    print_rk_recr topology year month rk rec f s = Ok tt s2 /\
    written s2 f = written s f ++ out /\
    let blocks := length (field_values fixed_separator out) in
    field_values "Site: " out = replicate blocks (rk_site rk) /\
    field_values "VO: " out = replicate blocks (rk_vo rk) /\
    field_values "Processors: " out = replicate blocks (Py.str (rk_cores rk)) /\
    field_values "EarliestEndTime: " out = replicate blocks (Py.str (mintime rec)) /\
    field_values "Month: " out = replicate blocks (Py.fmt_02d month) /\
    field_values "Year: " out = replicate blocks (Py.str year) /\
    field_values "GlobalUserName: " out =
      replicate blocks
        (if decide (rk_dn rk = "N/A") then "generic " +:+ rk_vo rk +:+ " user"
         else rk_dn rk).
Proof.
  intros Hp.
  destruct (print_rk_recr_run topology year month rk rec f s p s1 Hp)
    as (s2 & Hrun & Hout & _).
  eexists s2, _. split; [exact Hrun|]. split; [exact Hout|].
  assert (Hdn : (if String.eqb (rk_dn rk) "N/A"
                 then "generic " +:+ rk_vo rk +:+ " user" else rk_dn rk) =
                (if decide (rk_dn rk = "N/A")
                 then "generic " +:+ rk_vo rk +:+ " user" else rk_dn rk)).
  { rewrite <- dn_eqb. by case_decide. }
  unfold fixed_separator. rewrite !field_values_app.
  pose proof (field_values_identity year month rk rec "hepspec-hosts"
                (1 - p)%Qc "hepspec") as (-> & -> & -> & -> & -> & -> & ->).
  pose proof (field_values_block year month rk rec "hepspec-hosts"
                (1 - p)%Qc "hepspec") as (_ & _ & _ & _ & _ & _ & _ & ->).
  rewrite Hdn.
  destruct (Py.isclose p (Q2Qc 0)).
  - cbn. by repeat split.
  - pose proof (field_values_identity year month rk rec "hepscore-hosts"
                  p "HEPscore23") as (-> & -> & -> & -> & -> & -> & ->).
    pose proof (field_values_block year month rk rec "hepscore-hosts"
                  p "HEPscore23") as (_ & _ & _ & _ & _ & _ & _ & ->).
    rewrite Hdn. cbn. by repeat split.
Qed.

(** ** The properties above on the sample inputs *)

Lemma walk_order_irrelevant_witness :
  walk ∅ sample_aggregation = walk ∅ sample_aggregation_swapped.
Proof.
  apply (walk_order_irrelevant ∅ sample_aggregation sample_aggregation_swapped).
  vm_compute. apply perm_swap.
Defined.


Lemma walk_record_inv_witness :
  exists r,
    walk ∅ sample_aggregation !! ("cms", "Nebraska", 8, "N/A") = Some (Rec r) /\
    Record_inv r.
Proof.
  eexists. split; [vm_compute; reflexivity|].
  apply (walk_record_inv ∅ sample_aggregation ("cms", "Nebraska", 8, "N/A")).
  - apply Forall_forall. vm_compute. repeat constructor; discriminate.
  - vm_compute. reflexivity.
Defined.


Lemma auto_year_month_previous_witness :
  1 <= (auto_year_month (2024, 1, 2)).2 <= 12 /\
  12 * (auto_year_month (2024, 1, 2)).1 + (auto_year_month (2024, 1, 2)).2
  = 12 * 2024 + 1 - (if 2 <=? 3 then 1 else 0).
Proof.
  apply (auto_year_month_previous 2024 1 2). lia.
Defined.

Lemma normal_hepspec_table_last_wins_witness :
  (<["Nebraska" := Py.float 11]>
     (<["Purdue" := Py.float 12]> (<["Nebraska" := Py.float 10]> ∅))
   : gmap string Qc) !! "Nebraska"
  = last (factors_of sample_split sample_float_of_str "Nebraska" sample_lines).
Proof.
  apply (normal_hepspec_table_last_wins sample_split sample_float_of_str
           sample_lines).
  reflexivity.
Defined.

Lemma normal_hepspec_table_skips_witness :
  normal_hepspec_table sample_split sample_float_of_str
    (["Nebraska 10"] ++ "not a table line" :: ["Purdue 12"]) =
  normal_hepspec_table sample_split sample_float_of_str
    (["Nebraska 10"] ++ ["Purdue 12"]).
Proof.
  apply (normal_hepspec_table_skips sample_split sample_float_of_str
           ["Nebraska 10"] "not a table line" ["Purdue 12"]).
  right. vm_compute. discriminate.
Defined.

Lemma download_failure_witness :
  get_hs23_portion failing_topology "Nebraska" initial_state
  = Raise (Exception ("Error downloading resource group summary from Topology: "
                      +:+ Py.str (status_code failing_topology))) initial_state.
Proof.
  refine (proj1 (download_failure failing_topology 2024 3 (sample_key "Nebraska")
                   sample_record Stdout "Nebraska" initial_state _ _)).
  - reflexivity.
  - vm_compute. discriminate.
Defined.

Lemma sample_chosen :
  chosen_year_month sample_int_of_str (2023, 12, 15)
    ["apel_report.py"; "2023"; "11"] (2023, 11).
Proof. right. exists "2023", "11". repeat split; vm_compute; reflexivity. Qed.


Lemma main_query_failure_witness :
  exists s',
    main sample_int_of_str "apel_report.py" (2023, 12, 15)
         (fun _ _ => inl (Exception "ConnectionTimeout")) sample_topology ∅
         ["apel_report.py"; "2023"; "11"] initial_state
    = Raise (Exception "ConnectionTimeout") s' /\
    files s' !! outfile_name 2023 11 = Some [].
Proof.
  destruct (main_query_failure sample_int_of_str "apel_report.py" (2023, 12, 15)
              (fun _ _ => inl (Exception "ConnectionTimeout")) sample_topology ∅
              ["apel_report.py"; "2023"; "11"] 2023 11
              (Exception "ConnectionTimeout") initial_state sample_chosen eq_refl)
    as (s' & Hrun & Hfile & _).
  exists s'. exact (conj Hrun Hfile).
Defined.

Lemma main_download_failure_witness :
  exists s',
    main sample_int_of_str "apel_report.py" (2023, 12, 15)
         (fun _ _ => inr sample_aggregation) failing_topology ∅
         ["apel_report.py"; "2023"; "11"] initial_state
    = Raise (Exception ("Error downloading resource group summary from Topology: "
                        +:+ Py.str (status_code failing_topology))) s' /\
    written s' (File (outfile_name 2023 11)) = [fixed_header].
Proof.
  assert (Hne : walk ∅ sample_aggregation <> ∅).
  { intros Hempty.
    assert (Hl : walk ∅ sample_aggregation !! ("cms", "Nebraska", 8, "N/A") = None)
      by (by rewrite Hempty).
    vm_compute in Hl. discriminate. }
  assert (Hcode : status_code failing_topology <> 200) by (vm_compute; discriminate).
  destruct (main_download_failure sample_int_of_str "apel_report.py" (2023, 12, 15)
              (fun _ _ => inr sample_aggregation) failing_topology ∅
              ["apel_report.py"; "2023"; "11"] 2023 11 sample_aggregation
              initial_state sample_chosen eq_refl Hne eq_refl Hcode)
    as (s' & Hrun & Hfile & _).
  exists s'. exact (conj Hrun Hfile).
Defined.

Lemma block_identity_witness :
  exists s2 out,
    print_rk_recr sample_topology 2024 3 (sample_key "Nebraska") sample_record
                  Stdout initial_state = Ok tt s2 /\
    written s2 Stdout = written initial_state Stdout ++ out /\
    field_values "GlobalUserName: " out =
      replicate (length (field_values fixed_separator out))
        (if decide (rk_dn (sample_key "Nebraska") = "N/A")
         then "generic " +:+ rk_vo (sample_key "Nebraska") +:+ " user"
         else rk_dn (sample_key "Nebraska")).
Proof.
  destruct (block_identity sample_topology 2024 3 (sample_key "Nebraska")
              sample_record Stdout initial_state (sample_portion "Nebraska")
              (fetched sample_topology initial_state) eq_refl)
    as (s2 & out & Hrun & Hout & _ & _ & _ & _ & _ & _ & Hdn).
  exists s2, out. exact (conj Hrun (conj Hout Hdn)).
Defined.

(** ** More on the merge and on the factor *)

Lemma record_adder_fields a b :
  mintime (record_adder a b) = Z.min (mintime a) (mintime b) /\
  maxtime (record_adder a b) = Z.max (maxtime a) (maxtime b) /\
  walldur (record_adder a b) = walldur a + walldur b /\
  cpudur (record_adder a b) = cpudur a + cpudur b /\
  njobs (record_adder a b) = njobs a + njobs b /\
  nf (record_adder a b) = Py.min_float (nf a) (nf b).
Proof. unfold record_adder. cbn. by rewrite min_int_spec, max_int_spec. Qed.

(** X19.  The record that the leaves of a key merge to, in closed form:
    its durations and job count are the sums over the leaves, its earliest
    and latest end times are the least and the greatest of theirs, and its
    factor is the least of their factors. *)
Theorem merged_record_fields r rs :
  let merged := foldl record_adder r rs in
  walldur merged = walldur r + sum_list (walldur <$> rs) /\
  cpudur merged = cpudur r + sum_list (cpudur <$> rs) /\
  njobs merged = njobs r + sum_list (njobs <$> rs) /\
  (forall x, x ∈ r :: rs ->
     mintime merged <= mintime x /\ maxtime x <= maxtime merged /\
     (nf merged <= nf x)%Qc) /\
  (exists x, x ∈ r :: rs /\ mintime merged = mintime x) /\
  (exists x, x ∈ r :: rs /\ maxtime merged = maxtime x) /\
  (exists x, x ∈ r :: rs /\ nf merged = nf x).
Proof.
  revert r. induction rs as [|y rs IH]; intros r; cbn [foldl].
  - cbn. repeat split; try lia.
    + apply list_elem_of_singleton in H. subst. lia.
    + apply list_elem_of_singleton in H. subst. lia.
    + apply list_elem_of_singleton in H. subst. apply Qcle_refl.
    + exists r. split; [left|done].
    + exists r. split; [left|done].
    + exists r. split; [left|done].
  - destruct (IH (record_adder r y))
      as (Hw & Hc & Hj & Hall & (x1 & Hx1 & Hmin) & (x2 & Hx2 & Hmax)
          & (x3 & Hx3 & Hnf)).
    destruct (record_adder_fields r y) as (Fmin & Fmax & Fw & Fc & Fj & Fnf).
    set (merged := foldl record_adder (record_adder r y) rs) in *.
    rewrite !fmap_cons. unfold sum_list in *. cbn [foldr].
    split; [lia|]. split; [lia|]. split; [lia|].
    destruct (Hall (record_adder r y)) as (Hm1 & Hm2 & Hm3); [left|].
    split; [|split; [|split]].
    + intros x Hx. apply elem_of_cons in Hx as [->|Hx];
        [|apply elem_of_cons in Hx as [->|Hx]].
      * split; [lia|]. split; [lia|].
        eapply Qcle_trans; [exact Hm3|]. rewrite Fnf. apply min_float_le_l.
      * split; [lia|]. split; [lia|].
        eapply Qcle_trans; [exact Hm3|]. rewrite Fnf. apply min_float_le_r.
      * apply Hall. by right.
    + apply elem_of_cons in Hx1 as [->|Hx1].
      * destruct (Z.min_spec (mintime r) (mintime y)) as [[_ E]|[_ E]].
        -- exists r. split; [left|lia].
        -- exists y. split; [right; left|lia].
      * exists x1. split; [by do 2 right|done].
    + apply elem_of_cons in Hx2 as [->|Hx2].
      * destruct (Z.max_spec (maxtime r) (maxtime y)) as [[_ E]|[_ E]].
        -- exists y. split; [right; left|lia].
        -- exists r. split; [left|lia].
      * exists x2. split; [by do 2 right|done].
    + apply elem_of_cons in Hx3 as [->|Hx3].
      * rewrite Fnf in Hnf.
        destruct (min_float_cases (nf r) (nf y)) as [E|E]; rewrite E in Hnf.
        -- exists r. split; [left|done].
        -- exists y. split; [right; left|done].
      * exists x3. split; [by do 2 right|done].
Qed.




